(** * Adaptive binning selection: te_toolbox/binning/statistical.py

    A shallow embedding of the bin-count optimiser [optimize_bins], of the
    four cost functions it is used with and of the four rule functions,
    over IEEE binary64 numbers (Rocq's primitive floats), followed by the
    properties of the specification that were checked against it.

    Python exceptions are an explicit error result; the logger warning of
    the for/else branch is a field of the returned outcome.  The two libm
    functions the module calls, [numpy.log] and [math.lgamma], are not part
    of the repository and are Section variables. *)

From Stdlib Require Import ZArith List Bool Lia Floats Permutation.
Import ListNotations.
Local Open Scope Z_scope.

(* ================================================================== *)
(** ** Python results *)

Module Py.

Inductive exn : Type :=
| ValueError
| TypeError
| IndexError
| OverflowError.

Inductive result (A : Type) : Type :=
| Ok (a : A)
| Raise (e : exn).

Arguments Ok {A} a.
Arguments Raise {A} e.

Definition bind {A B : Type} (r : result A) (k : A -> result B) : result B :=
  match r with
  | Ok a => k a
  | Raise e => Raise e
  end.

Definition raises {A : Type} (r : result A) : bool :=
  match r with
  | Ok _ => false
  | Raise _ => true
  end.

Definition returns {A : Type} (r : result A) : bool := negb (raises r).

End Py.

Import Py.

Notation "x <- r ;; k" := (Py.bind r (fun x => k))
  (at level 61, r at next level, right associativity).

(* ================================================================== *)
(** ** The numpy and builtin operations the module relies on *)

Module Np.

(** Conversion of an integer (Python int, np.int64) to float64: round to
    nearest, ties to even. *)
Definition Z2F (z : Z) : float :=
  SF2Prim (binary_normalize prec emax z 0 false).

(** [int(x)] on a float: truncation toward zero; ValueError on NaN and
    OverflowError on an infinity. *)
Definition py_int (x : float) : result Z :=
  match Prim2SF x with
  | S754_zero _ => Ok 0
  | S754_finite s m e =>
      let a := match e with
               | Zneg p => Z.shiftr (Zpos m) (Zpos p)
               | _ => Z.shiftl (Zpos m) e
               end in
      Ok (if s then - a else a)
  | S754_nan => Raise ValueError
  | S754_infinity _ => Raise OverflowError
  end.

(** [len(a)] *)
Definition len {A : Type} (a : list A) : Z := Z.of_nat (length a).

(** [range(a, b)] *)
Definition py_range (a b : Z) : list Z :=
  map (fun i => a + Z.of_nat i) (seq 0 (Z.to_nat (b - a))).

(** np.minimum and np.maximum on scalars: a NaN operand is returned. *)
Definition minimum (a b : float) : float :=
  if (a <=? b)%float || is_nan a then a else b.

Definition maximum (a b : float) : float :=
  if (b <=? a)%float || is_nan a then a else b.

(** [np.min(a)], [np.max(a)]: ValueError on a zero-size array. *)
Definition np_min (a : list float) : result float :=
  match a with
  | [] => Raise ValueError
  | x :: xs => Ok (fold_left minimum xs x)
  end.

Definition np_max (a : list float) : result float :=
  match a with
  | [] => Raise ValueError
  | x :: xs => Ok (fold_left maximum xs x)
  end.

(** [np.arange(0, num)] as float64. *)
Definition arange (num : Z) : list float :=
  map (fun i => Z2F (Z.of_nat i)) (seq 0 (Z.to_nat num)).

(** [y[-1] = v] on a non-empty array. *)
Definition set_last (y : list float) (v : float) : list float :=
  match y with
  | [] => []
  | _ => removelast y ++ [v]
  end.

(** [np.linspace(start, stop, num)] for scalar float64 endpoints
    (endpoint=True), following numpy's function_base.linspace:
    the step is [delta / div]; a zero step (denormal span) makes numpy
    divide first and multiply by [delta] afterwards; the last entry is
    overwritten by [stop]. *)
Definition np_linspace (start stop : float) (num : Z) : result (list float) :=
  if num <? 0 then Raise ValueError
  else
    let div := num - 1 in
    let delta := (stop - start)%float in
    let y := arange num in
    let y :=
      if 0 <? div then
        let step := (delta / Z2F div)%float in
        if (step =? 0)%float
        then map (fun v => (v / Z2F div * delta)%float) y
        else map (fun v => (v * step)%float) y
      else map (fun v => (v * delta)%float) y in
    let y := map (fun v => (v + start)%float) y in
    Ok (if 1 <? num then set_last y stop else y).

(** Number of entries of [a] satisfying [p]. *)
Definition count (p : float -> bool) (a : list float) : Z :=
  len (filter p a).

(** [any(bins[:-1] > bins[1:])] *)
Fixpoint any_decreasing (bins : list float) : bool :=
  match bins with
  | x :: ((y :: _) as tl) => (y <? x)%float || any_decreasing tl
  | _ => false
  end.

(** [a.searchsorted(v[:-1], 'left')] followed by
    [a.searchsorted(v[-1:], 'right')] on the sorted sample: the number of
    entries strictly below each edge but the last, and the number of
    entries not above the last edge. *)
Fixpoint search_sorted_inclusive (a : list float) (bins : list float) : list Z :=
  match bins with
  | [] => []
  | [e] => [count (fun x => (x <=? e)%float) a]
  | e :: tl => count (fun x => (x <? e)%float) a :: search_sorted_inclusive a tl
  end.

(** [np.diff] on integers. *)
Fixpoint diff (c : list Z) : list Z :=
  match c with
  | x :: ((y :: _) as tl) => (y - x) :: diff tl
  | _ => []
  end.

(** [np.histogram(a, bins)[0]] for an explicit array of edges: ValueError
    unless the edges are monotonic, then the differences of the cumulative
    counts (the last bin is closed on the right). *)
Definition np_histogram (a : list float) (bins : list float) : result (list Z) :=
  if any_decreasing bins then Raise ValueError
  else Ok (diff (search_sorted_inclusive a bins)).

(** int64 wrap-around. *)
Definition wrap64 (z : Z) : Z := (z + 2 ^ 63) mod 2 ^ 64 - 2 ^ 63.

(** [np.sum] of an int64 array. *)
Definition np_sum_int (a : list Z) : Z :=
  fold_left (fun acc x => wrap64 (acc + x)) a 0.

(** [np.sum] of a float64 array, accumulated from left to right (numpy
    regroups the additions of long arrays; the properties below compare
    sums taken in one and the same order). *)
Definition np_sum (a : list float) : float :=
  fold_left (fun acc x => (acc + x)%float) a 0%float.

(** [np.mean] and [np.var] (ddof = 0) of an int64 array: both accumulate
    in float64 and divide by the number of entries. *)
Definition np_mean (a : list Z) : float :=
  (np_sum (map Z2F a) / Z2F (len a))%float.

Definition np_var (a : list Z) : float :=
  let mu := np_mean a in
  let x := map (fun v => (Z2F v - mu)%float) a in
  (np_sum (map (fun v => (v * v)%float) x) / Z2F (len a))%float.

(** [bins[i]]: IndexError out of range. *)
Definition getitem (bins : list float) (i : nat) : result float :=
  match nth_error bins i with
  | Some v => Ok v
  | None => Raise IndexError
  end.

(** The conversion a [math] function applies to its argument when handed
    an ndarray: only an array of exactly one element converts to a Python
    float, any other size is a TypeError. *)
Definition as_python_float (a : list float) : result float :=
  match a with
  | [x] => Ok x
  | _ => Raise TypeError
  end.

End Np.

Import Np.

(* ================================================================== *)
(** ** Cost functions *)

Definition cost_function : Type := list Z -> list float -> result float.

Section Costs.

(** [numpy.log] on a float64 scalar: total (-inf at 0, NaN below). *)
Variable np_log : float -> float.

(** [math.lgamma] (imported as [loggamma]) on a Python float: raises at
    its poles and on overflow. *)
Variable math_lgamma : float -> result float.

(** [loggamma(a)] with an ndarray argument. *)
Definition loggamma_array (a : list float) : result float :=
  x <- as_python_float a ;; math_lgamma x.

(** Lines 83-91; the five terms are evaluated from left to right. *)
Definition knuth_cost : cost_function := fun hist bins =>
  let n := np_sum_int hist in
  let m := len hist in
  let t1 := (Z2F n * np_log (Z2F m))%float in
  t2 <- math_lgamma (Z2F m / 2)%float ;;
  t3 <- math_lgamma (Z2F n + Z2F m / 2)%float ;;
  g <- math_lgamma 0.5%float ;;
  s <- loggamma_array (map (fun c => (Z2F c + 0.5)%float) hist) ;;
  Ok (t1 + t2 - t3 - Z2F m * g + s)%float.

(** Lines 108-112; [(h * n) ** 2] is the product of [h * n] with itself. *)
Definition shimazaki_cost : cost_function := fun hist bins =>
  let n := np_sum_int hist in
  b1 <- getitem bins 1 ;;
  b0 <- getitem bins 0 ;;
  let h := (b1 - b0)%float in
  let mean := np_mean hist in
  let var := np_var hist in
  let d := (h * Z2F n)%float in
  Ok ((2 * mean - var) / (d * d))%float.

(** [hist[hist > 0]] *)
Definition nonzero (hist : list Z) : list Z := filter (fun c => 0 <? c) hist.

(** [np.sum(nonzero_hist * np.log(nonzero_hist))] *)
Definition entropy_term (hist : list Z) : float :=
  np_sum (map (fun c => (Z2F c * np_log (Z2F c))%float) (nonzero hist)).

(** Lines 129-135. *)
Definition aic_cost : cost_function := fun hist bins =>
  let n := np_sum_int hist in
  b1 <- getitem bins 1 ;;
  b0 <- getitem bins 0 ;;
  let h := (b1 - b0)%float in
  let m := len hist in
  Ok (Z2F m + Z2F n * np_log (Z2F n) + Z2F n * np_log h
      - entropy_term hist)%float.

(** Lines 152-161. *)
Definition bic_cost : cost_function := fun hist bins =>
  let n := np_sum_int hist in
  b1 <- getitem bins 1 ;;
  b0 <- getitem bins 0 ;;
  let h := (b1 - b0)%float in
  let m := len hist in
  Ok (np_log (Z2F n) / 2 * Z2F m + Z2F n * np_log (Z2F n)
      + Z2F n * np_log h - entropy_term hist)%float.

End Costs.

(* ================================================================== *)
(** ** The optimiser *)

Record search_state : Type := mk_state {
  best_cost : float;
  last_cost : float;
  best_n : Z;
  worse_count : Z
}.

Inductive flow : Type := Continue | Break.

(** What [optimize_bins] hands back: the edges, and whether the warning of
    the for/else branch was logged. *)
Record outcome : Type := mk_outcome {
  edges : list float;
  warned : bool
}.

(** Lines 37-38; [0x1.999999999999ap-4] is the binary64 number written 0.1. *)
Definition n_min (n : Z) : result Z :=
  k <- py_int (sqrt (Z2F n) * 0x1.999999999999ap-4)%float ;; Ok (Z.max 2 k).

Definition n_max (n : Z) : result Z :=
  py_int (sqrt (Z2F n) * 10)%float.

Definition init_state (minimize : bool) (nmin : Z) : search_state :=
  let best := if minimize then infinity else neg_infinity in
  mk_state best best nmin 0.

(** [cost] is better than [ref] in the chosen direction. *)
Definition improves (minimize : bool) (cost ref : float) : bool :=
  (minimize && (cost <? ref)%float) || (negb minimize && (ref <? cost)%float).

(** The if / elif / else of one loop iteration, lines 51-60. *)
Definition update (minimize : bool) (patience : Z)
    (st : search_state) (n_bins : Z) (cost : float) : search_state * flow :=
  if improves minimize cost (best_cost st) then
    (mk_state cost (last_cost st) n_bins 0, Continue)
  else if improves minimize cost (last_cost st) then
    (mk_state (best_cost st) (last_cost st) (best_n st) 0, Continue)
  else
    let w := worse_count st + 1 in
    (mk_state (best_cost st) (last_cost st) (best_n st) w,
     if patience <=? w then Break else Continue).

(** Lines 46-48: the edges, the histogram and the cost of one candidate. *)
Definition candidate_cost (data : list float) (cf : cost_function)
    (n_bins : Z) : result float :=
  lo <- np_min data ;;
  hi <- np_max data ;;
  bins <- np_linspace lo hi (n_bins + 1) ;;
  hist <- np_histogram data bins ;;
  cf hist bins.

(** The for loop over the candidates; [Continue] at the end means that the
    range was exhausted, which is when the else branch runs. *)
Fixpoint scan (data : list float) (cf : cost_function) (minimize : bool)
    (patience : Z) (cands : list Z) (st : search_state)
    : result (search_state * flow) :=
  match cands with
  | [] => Ok (st, Continue)
  | n_bins :: rest =>
      cost <- candidate_cost data cf n_bins ;;
      match update minimize patience st n_bins cost with
      | (st', Break) => Ok (st', Break)
      | (st', Continue) => scan data cf minimize patience rest st'
      end
  end.

(** Lines 36-66. *)
Definition optimize_bins (data : list float) (cf : cost_function)
    (minimize : bool) (patience : Z) : result outcome :=
  let n := len data in
  nmin <- n_min n ;;
  nmax <- n_max n ;;
  r <- scan data cf minimize patience (py_range nmin nmax)
         (init_state minimize nmin) ;;
  lo <- np_min data ;;
  hi <- np_max data ;;
  e <- np_linspace lo hi (best_n (fst r) + 1) ;;
  Ok (mk_outcome e match snd r with Continue => true | Break => false end).

(** Default patience of [optimize_bins]. *)
Definition default_patience : Z := 10.

Section Rules.

Variable np_log : float -> float.
Variable math_lgamma : float -> result float.

Definition knuth_bins (data : list float) : result outcome :=
  optimize_bins data (knuth_cost np_log math_lgamma) false default_patience.

Definition aic_bins (data : list float) : result outcome :=
  optimize_bins data (aic_cost np_log) true default_patience.

Definition bic_bins (data : list float) : result outcome :=
  optimize_bins data (bic_cost np_log) true default_patience.

End Rules.

Definition shimazaki_bins (data : list float) : result outcome :=
  optimize_bins data shimazaki_cost true default_patience.

(* ================================================================== *)
(** ** Auxiliary definitions for the statements below *)

(** The cost both [best_cost] and [last_cost] start from. *)
Definition worst (minimize : bool) : float :=
  if minimize then infinity else neg_infinity.

(** A cost was returned, and it is neither NaN nor infinite. *)
Definition returns_finite (r : result float) : bool :=
  match r with
  | Ok c => is_finite c
  | Raise _ => false
  end.

(** The for/else flag: the warning is logged when the loop ran out. *)
Definition warning_of (f : flow) : bool :=
  match f with Continue => true | Break => false end.

(** The sample 0, 1, 2, 3 used in the examples: n_min = 2 and
    n_max = 20. *)
Definition sample4 : list float := [0; 1; 2; 3]%float.

(** Two neighbouring binary64 numbers. *)
Definition sample_close : list float := [1; 0x1.0000000000001p+0]%float.


(* ================================================================== *)
(** ** Definitions that follow the specification's wording

    They are compared with the embedding of the source above. *)

Module Spec.

(** Steps d to g of section 4.2: as [update], followed by step g,
    [last_cost = cost]. *)
Definition step (minimize : bool) (patience : Z)
    (st : search_state) (k : Z) (cost : float) : search_state * flow :=
  if improves minimize cost (best_cost st) then
    (mk_state cost cost k 0, Continue)
  else if improves minimize cost (last_cost st) then
    (mk_state (best_cost st) cost (best_n st) 0, Continue)
  else
    let w := worse_count st + 1 in
    (mk_state (best_cost st) cost (best_n st) w,
     if patience <=? w then Break else Continue).

(** Step 3 with [step] in place of the source's [update]. *)
Fixpoint scan (data : list float) (cf : cost_function) (minimize : bool)
    (patience : Z) (cands : list Z) (st : search_state)
    : result (search_state * flow) :=
  match cands with
  | [] => Ok (st, Continue)
  | k :: rest =>
      cost <- candidate_cost data cf k ;;
      match step minimize patience st k cost with
      | (st', Break) => Ok (st', Break)
      | (st', Continue) => scan data cf minimize patience rest st'
      end
  end.

(** n = sum(histogram), in the integers. *)
Definition total (hist : list Z) : Z := fold_right Z.add 0 hist.

(** The sum over the bins i with hist_i > 0 of hist_i ln(hist_i), taken
    bin by bin; an empty bin contributes nothing. *)
Fixpoint occupied_sum (ln : float -> float) (hist : list Z) (acc : float) : float :=
  match hist with
  | [] => acc
  | c :: rest =>
      occupied_sum ln rest
        (if 0 <? c then (acc + Z2F c * ln (Z2F c))%float else acc)
  end.

(** penalty + n ln(n) + n ln(h) - sum_{i : hist_i > 0} hist_i ln(hist_i);
    the penalty is m for AIC and (ln(n)/2) m for BIC. *)
Definition information_criterion (ln : float -> float) (penalty : float)
    (hist : list Z) (h : float) : float :=
  let n := Z2F (total hist) in
  (penalty + n * ln n + n * ln h - occupied_sum ln hist 0)%float.

Definition aic_penalty (hist : list Z) : float := Z2F (len hist).

Definition bic_penalty (ln : float -> float) (hist : list Z) : float :=
  (ln (Z2F (total hist)) / 2 * Z2F (len hist))%float.

(** The sum of a non-empty list of terms. *)
Definition sum_terms (l : list float) : float :=
  match l with
  | [] => 0%float
  | x :: tl => fold_left (fun acc y => (acc + y)%float) tl x
  end.

(** The log-gamma of every entry, failing as soon as one call fails. *)
Fixpoint each_lgamma (lgamma : float -> result float) (l : list float)
    : result (list float) :=
  match l with
  | [] => Ok []
  | x :: tl =>
      v <- lgamma x ;; vs <- each_lgamma lgamma tl ;; Ok (v :: vs)
  end.

(** Knuth's log-evidence
    n ln(m) + lnGamma(m/2) - lnGamma(n + m/2) - m lnGamma(0.5)
    + sum_i lnGamma(hist_i + 0.5). *)
Definition knuth_evidence (ln : float -> float)
    (lgamma : float -> result float) (hist : list Z) : result float :=
  let n := Z2F (total hist) in
  let m := Z2F (len hist) in
  a <- lgamma (m / 2)%float ;;
  b <- lgamma (n + m / 2)%float ;;
  g <- lgamma 0.5%float ;;
  terms <- each_lgamma lgamma (map (fun c => (Z2F c + 0.5)%float) hist) ;;
  Ok (n * ln m + a - b - m * g + sum_terms terms)%float.

(** Strictly increasing edges. *)
Fixpoint strictly_increasing (e : list float) : bool :=
  match e with
  | x :: ((y :: _) as tl) => (x <? y)%float && strictly_increasing tl
  | _ => true
  end.

End Spec.

(* ================================================================== *)
(** ** Devices for the order of binary64 numbers and for the loop *)

(** A key whose lexicographic order is the order [SFcompare] decides on
    numbers that are not NaN: the class (negative infinity, negative, zero,
    positive, positive infinity), then exponent and mantissa, both negated
    for a negative number. *)
Definition sf_key (x : spec_float) : Z * Z * Z :=
  match x with
  | S754_infinity true => (0, 0, 0)
  | S754_finite true m e => (1, - e, - Zpos m)
  | S754_zero _ => (2, 0, 0)
  | S754_finite false m e => (3, e, Zpos m)
  | S754_infinity false => (4, 0, 0)
  | S754_nan => (5, 0, 0)
  end.

Definition lex_lt (p q : Z * Z * Z) : Prop :=
  let '(a, b, c) := p in
  let '(a', b', c') := q in
  a < a' \/ (a = a' /\ (b < b' \/ (b = b' /\ c < c'))).

(** [lambda hist, bins: -cost_function(hist, bins)] *)
Definition negate_cost (cf : cost_function) : cost_function :=
  fun hist bins => c <- cf hist bins ;; Ok (- c)%float.

(** The search state of a minimisation of the negated cost. *)
Definition negate_state (st : search_state) : search_state :=
  mk_state (- best_cost st)%float (- last_cost st)%float
    (best_n st) (worse_count st).

(** A cost was returned and it does not improve on the initial value of
    [best_cost] and [last_cost]. *)
Definition never_improves (minimize : bool) (r : result float) : bool :=
  match r with
  | Ok c => negb (improves minimize c (worst minimize))
  | Raise _ => false
  end.

(** Zero and three times the smallest positive binary64 number. *)
Definition sample_subnormal : list float := [0; 0x3p-1074]%float.


(** Two finite numbers whose difference overflows. *)
Definition sample_wide : list float := [- 0x1.fp+1023; 0x1.fp+1023]%float.

(* ================================================================== *)
(** ** Facts about binary64 comparisons *)

Section FloatFacts.

Lemma SFcompare_refl (x : spec_float) :
  x <> S754_nan -> SFcompare x x = Some Eq.
Proof.
  destruct x as [s | s | | s m e]; simpl; intros H;
    try reflexivity; try congruence.
  - destruct s; reflexivity.
  - rewrite Z.compare_refl, Pos.compare_cont_refl. destruct s; reflexivity.
Qed.

Lemma is_nan_Prim2SF (x : float) :
  is_nan x = true -> Prim2SF x = S754_nan.
Proof.
  unfold is_nan. rewrite eqb_spec. unfold SFeqb. intros H.
  destruct (Prim2SF x) eqn:E; try reflexivity;
    rewrite SFcompare_refl in H by discriminate; discriminate.
Qed.

Lemma ltb_nan_l (x y : float) : is_nan x = true -> (x <? y)%float = false.
Proof.
  intros H. rewrite ltb_spec, (is_nan_Prim2SF x H). reflexivity.
Qed.

Lemma ltb_nan_r (x y : float) : is_nan y = true -> (x <? y)%float = false.
Proof.
  intros H. rewrite ltb_spec, (is_nan_Prim2SF y H). unfold SFltb.
  destruct (Prim2SF x); reflexivity.
Qed.

Lemma is_finite_Prim2SF (x : float) :
  is_finite x = true ->
  (exists s, Prim2SF x = S754_zero s) \/
  (exists s m e, Prim2SF x = S754_finite s m e).
Proof.
  unfold is_finite, is_nan, is_infinity.
  rewrite !eqb_spec, abs_spec.
  change (Prim2SF infinity) with (S754_infinity false). unfold SFeqb.
  destruct (Prim2SF x) as [s | s | | s m e]; simpl; intros H;
    try discriminate; eauto.
  destruct s; discriminate.
Qed.

Lemma finite_ltb_infinity (x : float) :
  is_finite x = true -> (x <? infinity)%float = true.
Proof.
  intros H. rewrite ltb_spec.
  destruct (is_finite_Prim2SF x H) as [[s E] | [s [m [e E]]]];
    rewrite E; reflexivity.
Qed.

Lemma neg_infinity_ltb_finite (x : float) :
  is_finite x = true -> (neg_infinity <? x)%float = true.
Proof.
  intros H. rewrite ltb_spec.
  destruct (is_finite_Prim2SF x H) as [[s E] | [s [m [e E]]]];
    rewrite E; reflexivity.
Qed.

End FloatFacts.

(* ================================================================== *)
(** ** The search loop *)

Section Loop.

Variable data : list float.
Variable cf : cost_function.
Variable minimize : bool.
Variable patience : Z.

Lemma init_state_fields (nmin : Z) :
  best_cost (init_state minimize nmin) = worst minimize /\
  last_cost (init_state minimize nmin) = worst minimize /\
  best_n (init_state minimize nmin) = nmin /\
  worse_count (init_state minimize nmin) = 0.
Proof. unfold init_state, worst. destruct minimize; repeat split. Qed.

(** No branch of the loop body assigns [last_cost]. *)
Lemma update_keeps_last_cost (st : search_state) (k : Z) (c : float) :
  last_cost (fst (update minimize patience st k c)) = last_cost st.
Proof.
  unfold update.
  destruct (improves minimize c (best_cost st)); [reflexivity|].
  destruct (improves minimize c (last_cost st)); reflexivity.
Qed.

Lemma update_best_n (st : search_state) (k : Z) (c : float) :
  best_n (fst (update minimize patience st k c)) = best_n st \/
  best_n (fst (update minimize patience st k c)) = k.
Proof.
  unfold update.
  destruct (improves minimize c (best_cost st)); [right; reflexivity|].
  destruct (improves minimize c (last_cost st)); left; reflexivity.
Qed.

Lemma improves_worst_finite (c : float) :
  is_finite c = true -> improves minimize c (worst minimize) = true.
Proof.
  intros H. unfold improves, worst. destruct minimize; simpl.
  - rewrite finite_ltb_infinity by assumption. reflexivity.
  - apply neg_infinity_ltb_finite. assumption.
Qed.

(** A finite cost always passes one of the two tests while [last_cost]
    still holds its initial value. *)
Lemma update_finite (st : search_state) (k : Z) (c : float) :
  is_finite c = true ->
  last_cost st = worst minimize ->
  exists st',
    update minimize patience st k c = (st', Continue) /\
    worse_count st' = 0 /\ last_cost st' = worst minimize.
Proof.
  intros Hc Hl. unfold update.
  destruct (improves minimize c (best_cost st)).
  - eexists; repeat split; assumption.
  - rewrite Hl, (improves_worst_finite c Hc).
    eexists; repeat split; assumption.
Qed.

Lemma scan_finite (cands : list Z) :
  forall st,
    last_cost st = worst minimize ->
    worse_count st = 0 ->
    (forall k, In k cands ->
       exists c, candidate_cost data cf k = Ok c /\ is_finite c = true) ->
    exists st',
      scan data cf minimize patience cands st = Ok (st', Continue) /\
      worse_count st' = 0 /\ last_cost st' = worst minimize.
Proof.
  induction cands as [|k rest IH]; intros st Hl Hw Hfin.
  - exists st. repeat split; assumption.
  - destruct (Hfin k (or_introl eq_refl)) as [c [Hc Hf]].
    destruct (update_finite st k c Hf Hl) as [st1 [Hu [Hw1 Hl1]]].
    simpl. rewrite Hc. simpl. rewrite Hu.
    apply IH; try assumption.
    intros k' Hk'. apply Hfin. right. assumption.
Qed.

(** The loop returns whenever every candidate evaluation does. *)
Lemma scan_returns (cands : list Z) :
  forall st,
    (forall k, In k cands -> returns (candidate_cost data cf k) = true) ->
    exists st' f, scan data cf minimize patience cands st = Ok (st', f).
Proof.
  induction cands as [|k rest IH]; intros st Hret.
  - exists st, Continue. reflexivity.
  - pose proof (Hret k (or_introl eq_refl)) as Hk.
    simpl. destruct (candidate_cost data cf k) as [c|e]; [|discriminate].
    simpl. destruct (update minimize patience st k c) as [st1 [|]].
    + apply IH. intros k' Hk'. apply Hret. right. assumption.
    + exists st1, Break. reflexivity.
Qed.

(** [best_n] is the initial one or one of the candidates visited. *)
Lemma scan_best_n (cands : list Z) :
  forall st st' f,
    scan data cf minimize patience cands st = Ok (st', f) ->
    best_n st' = best_n st \/ In (best_n st') cands.
Proof.
  induction cands as [|k rest IH]; intros st st' f H.
  - simpl in H. inversion H; subst. left. reflexivity.
  - simpl in H. destruct (candidate_cost data cf k) as [c|e]; [|discriminate].
    simpl in H.
    pose proof (update_best_n st k c) as Hb.
    destruct (update minimize patience st k c) as [st1 [|]]; simpl in Hb.
    + destruct (IH _ _ _ H) as [E | Hin].
      * rewrite E. destruct Hb as [Hb | Hb]; [left | right; left]; congruence.
      * right. right. assumption.
    + inversion H; subst.
      destruct Hb as [Hb | Hb]; [left | right; left]; congruence.
Qed.

(** [last_cost] still holds its initial value when the loop is left. *)
Lemma scan_keeps_last_cost (cands : list Z) :
  forall st st' f,
    scan data cf minimize patience cands st = Ok (st', f) ->
    last_cost st' = last_cost st.
Proof.
  induction cands as [|k rest IH]; intros st st' f H.
  - simpl in H. inversion H; subst. reflexivity.
  - simpl in H. destruct (candidate_cost data cf k) as [c|e]; [|discriminate].
    simpl in H.
    pose proof (update_keeps_last_cost st k c) as Hl.
    destruct (update minimize patience st k c) as [st1 [|]]; simpl in Hl.
    + rewrite (IH _ _ _ H). assumption.
    + inversion H; subst. assumption.
Qed.

End Loop.

(** ** Ranges, lengths and the bounds of the scan *)

Lemma in_py_range (a b k : Z) : In k (py_range a b) <-> a <= k < b.
Proof.
  unfold py_range. rewrite in_map_iff. split.
  - intros [i [E Hi]]. apply in_seq in Hi. lia.
  - intros H. exists (Z.to_nat (k - a)). split; [lia|].
    apply in_seq. lia.
Qed.

Lemma n_min_at_least_2 (n nmin : Z) : n_min n = Ok nmin -> 2 <= nmin.
Proof.
  unfold n_min. destruct (py_int _) as [k|e]; simpl; intros H;
    inversion H; subst. lia.
Qed.

Lemma length_set_last (y : list float) (v : float) :
  length (set_last y v) = length y.
Proof.
  destruct y as [|x xs]; [reflexivity|].
  unfold set_last. rewrite length_app.
  pose proof (app_removelast_last v (l := x :: xs)) as E.
  apply (f_equal (@length float)) in E; [|discriminate].
  rewrite length_app in E. simpl in E |- *. lia.
Qed.

Lemma np_linspace_len (start stop : float) (num : Z) (e : list float) :
  np_linspace start stop num = Ok e -> len e = num.
Proof.
  unfold np_linspace. destruct (num <? 0) eqn:Hn; [discriminate|].
  apply Z.ltb_ge in Hn. intros H. inversion H as [E]. clear H E.
  assert (L : forall f g : float -> float,
             length (map f (map g (arange num))) = Z.to_nat num).
  { intros f g. unfold arange. rewrite !length_map, length_seq. reflexivity. }
  unfold len.
  destruct (1 <? num); [rewrite length_set_last|];
    (destruct (0 <? num - 1); [destruct (_ =? _)%float|]); rewrite L; lia.
Qed.

Lemma np_linspace_returns (start stop : float) (num : Z) :
  0 <= num -> exists e, np_linspace start stop num = Ok e.
Proof.
  intros H. unfold np_linspace.
  destruct (num <? 0) eqn:Hn; [apply Z.ltb_lt in Hn; lia|].
  eexists; reflexivity.
Qed.

Lemma returns_finite_inv (r : result float) :
  returns_finite r = true -> exists c, r = Ok c /\ is_finite c = true.
Proof. destruct r as [c|e]; simpl; [eauto | discriminate]. Qed.

Lemma returns_finite_returns (r : result float) :
  returns_finite r = true -> returns r = true.
Proof. destruct r; simpl; [reflexivity | discriminate]. Qed.

(** A property checked on every entry of a range holds on the range. *)
Lemma forallb_py_range (p : Z -> bool) (a b : Z) :
  forallb p (py_range a b) = true -> forall k, a <= k < b -> p k = true.
Proof.
  intros H k Hk. rewrite forallb_forall in H. apply H, in_py_range, Hk.
Qed.

Lemma optimize_bins_unfold (data : list float) (cf : cost_function)
    (minimize : bool) (patience nmin nmax : Z) (st : search_state) (f : flow)
    (lo hi : float) (e : list float) :
  n_min (len data) = Ok nmin ->
  n_max (len data) = Ok nmax ->
  scan data cf minimize patience (py_range nmin nmax)
    (init_state minimize nmin) = Ok (st, f) ->
  np_min data = Ok lo ->
  np_max data = Ok hi ->
  np_linspace lo hi (best_n st + 1) = Ok e ->
  optimize_bins data cf minimize patience = Ok (mk_outcome e (warning_of f)).
Proof.
  intros H1 H2 H3 H4 H5 H6. unfold optimize_bins.
  rewrite H1; simpl. rewrite H2; simpl. rewrite H3; simpl.
  rewrite H4; simpl. rewrite H5; simpl. rewrite H6; simpl.
  destruct f; reflexivity.
Qed.

(** The bin count the loop ends with lies in the scanned range. *)
Lemma scan_best_n_range (data : list float) (cf : cost_function)
    (minimize : bool) (patience nmin nmax : Z) (st : search_state) (f : flow) :
  scan data cf minimize patience (py_range nmin nmax)
    (init_state minimize nmin) = Ok (st, f) ->
  best_n st = nmin \/ nmin <= best_n st < nmax.
Proof.
  intros H. destruct (scan_best_n _ _ _ _ _ _ _ _ H) as [E | Hin].
  - left. rewrite E. apply init_state_fields.
  - right. apply in_py_range. assumption.
Qed.

(* ================================================================== *)
(** ** Properties of the optimiser *)

(** C4: a candidate whose cost is NaN fails both comparisons, whatever the
    direction: [best_cost] and [best_n] stay as they are, [worse_count] is
    not reset but incremented, and the loop is left exactly when the
    incremented count reaches [patience]. *)
Theorem nan_cost_counts_as_worse (minimize : bool) (patience : Z)
    (st : search_state) (n_bins : Z) (cost : float) :
  is_nan cost = true ->
  best_cost (fst (update minimize patience st n_bins cost)) = best_cost st /\
  best_n (fst (update minimize patience st n_bins cost)) = best_n st /\
  worse_count (fst (update minimize patience st n_bins cost))
    = worse_count st + 1 /\
  snd (update minimize patience st n_bins cost)
    = (if patience <=? worse_count st + 1 then Break else Continue).
Proof.
  intros Hnan.
  assert (Hi : forall r, improves minimize cost r = false).
  { intros r. unfold improves.
    rewrite (ltb_nan_l cost r Hnan), (ltb_nan_r r cost Hnan).
    destruct minimize; reflexivity. }
  unfold update. rewrite !Hi. simpl. repeat split; reflexivity.
Qed.

Lemma nan_cost_counts_as_worse_witness :
  worse_count (fst (update true 10 (mk_state 1 infinity 4 3) 7 nan)) = 4 /\
  worse_count (fst (update false 10 (mk_state 1 neg_infinity 4 3) 7 nan)) = 4.
Proof.
  split.
  - exact (proj1 (proj2 (proj2
      (nan_cost_counts_as_worse true 10 (mk_state 1 infinity 4 3) 7 nan
         eq_refl)))).
  - exact (proj1 (proj2 (proj2
      (nan_cost_counts_as_worse false 10 (mk_state 1 neg_infinity 4 3) 7 nan
         eq_refl)))).
Defined.

(** C2: when every candidate evaluation returns a finite cost, the loop is
    never left early, for either direction: after any number of candidates
    the scan is still running with [worse_count] at 0, the whole range
    [n_min, n_max) is scanned, and [optimize_bins] returns with the
    end-of-range warning logged. *)
Theorem finite_costs_scan_whole_range (data : list float) (cf : cost_function)
    (minimize : bool) (patience : Z) (lo hi : float) (nmin nmax : Z) :
  np_min data = Ok lo ->
  np_max data = Ok hi ->
  (lo <? hi)%float = true ->
  1 <= patience ->
  n_min (len data) = Ok nmin ->
  n_max (len data) = Ok nmax ->
  (forall k, nmin <= k < nmax ->
     returns_finite (candidate_cost data cf k) = true) ->
  (forall j, j <= nmax ->
     exists st,
       scan data cf minimize patience (py_range nmin j)
         (init_state minimize nmin) = Ok (st, Continue) /\
       worse_count st = 0 /\ worse_count st < patience) /\
  (exists o, optimize_bins data cf minimize patience = Ok o /\
             warned o = true).
Proof.
  intros Hlo Hhi _ Hp Hmin Hmax Hfin.
  destruct (init_state_fields minimize nmin) as [_ [Hl0 [Hb0 Hw0]]].
  assert (Hscan : forall j, j <= nmax ->
     exists st,
       scan data cf minimize patience (py_range nmin j)
         (init_state minimize nmin) = Ok (st, Continue) /\
       worse_count st = 0).
  { intros j Hj.
    destruct (scan_finite data cf minimize patience (py_range nmin j)
                (init_state minimize nmin) Hl0 Hw0) as [st [Hs [Hw _]]].
    - intros k Hk. apply in_py_range in Hk.
      apply returns_finite_inv, Hfin. lia.
    - exists st. split; assumption. }
  split.
  - intros j Hj. destruct (Hscan j Hj) as [st [Hs Hw]].
    exists st. repeat split; try assumption. lia.
  - destruct (Hscan nmax (Z.le_refl _)) as [st [Hs _]].
    pose proof (n_min_at_least_2 _ _ Hmin) as H2.
    destruct (np_linspace_returns lo hi (best_n st + 1)) as [e He].
    { destruct (scan_best_n_range _ _ _ _ _ _ _ _ Hs); lia. }
    exists (mk_outcome e (warning_of Continue)). split; [|reflexivity].
    eapply optimize_bins_unfold; eassumption.
Qed.

Lemma finite_costs_scan_whole_range_witness :
  exists o, optimize_bins sample4 shimazaki_cost true 10 = Ok o /\
            warned o = true.
Proof.
  refine (proj2 (finite_costs_scan_whole_range sample4 shimazaki_cost true 10
                   0%float 3%float 2 20 _ _ _ _ _ _ _)).
  - reflexivity.
  - reflexivity.
  - reflexivity.
  - lia.
  - vm_compute. reflexivity.
  - vm_compute. reflexivity.
  - apply forallb_py_range. vm_compute. reflexivity.
Defined.

(** C1: the source never assigns [last_cost] inside the loop.  On the
    sample 0, 1, 2, 3 with the Shimazaki cost (strictly increasing from
    2 bins on) and the default patience, the loop of the source runs through
    the whole range with [last_cost] still infinite, whereas the loop with
    step g, which the claim describes, is left at 12 bins with [last_cost]
    equal to the cost of that candidate. *)
Theorem last_cost_is_never_assigned :
  exists st st',
    scan sample4 shimazaki_cost true default_patience (py_range 2 20)
      (init_state true 2) = Ok (st, Continue) /\
    last_cost st = infinity /\
    worse_count st = 0 /\
    Spec.scan sample4 shimazaki_cost true default_patience (py_range 2 20)
      (init_state true 2) = Ok (st', Break) /\
    Ok (last_cost st') = candidate_cost sample4 shimazaki_cost 12 /\
    worse_count st' = default_patience.
Proof.
  eexists. eexists.
  split; [vm_compute; reflexivity|].
  split; [reflexivity|].
  split; [reflexivity|].
  split; [vm_compute; reflexivity|].
  split; vm_compute; reflexivity.
Qed.

(* ================================================================== *)
(** ** Properties of the cost functions *)

Section CostFacts.

Variable np_log : float -> float.
Variable math_lgamma : float -> result float.

(** [loggamma(hist + 0.5)] hands an ndarray to [math.lgamma]: with any
    number of bins other than one the conversion fails. *)
Lemma knuth_cost_raises (hist : list Z) (bins : list float) :
  length hist <> 1%nat ->
  raises (knuth_cost np_log math_lgamma hist bins) = true.
Proof.
  intros Hlen. unfold knuth_cost.
  destruct (math_lgamma _) as [t2|]; [simpl|reflexivity].
  destruct (math_lgamma _) as [t3|]; [simpl|reflexivity].
  destruct (math_lgamma _) as [g|]; [simpl|reflexivity].
  unfold loggamma_array.
  destruct hist as [|c [|c' tl]]; simpl; try reflexivity.
  exfalso. apply Hlen. reflexivity.
Qed.

(** On a single bin, where the conversion succeeds, the value is the
    evidence of the specification. *)
Lemma knuth_cost_single_bin (c : Z) (bins : list float) :
  0 <= c < 2 ^ 63 ->
  knuth_cost np_log math_lgamma [c] bins
  = Spec.knuth_evidence np_log math_lgamma [c].
Proof.
  intros Hc. unfold knuth_cost, Spec.knuth_evidence, np_sum_int. simpl.
  replace (wrap64 c) with c
    by (unfold wrap64; rewrite Z.mod_small; lia).
  rewrite Z.add_0_r. unfold loggamma_array. simpl.
  repeat match goal with
         | |- context [Py.bind (math_lgamma ?x) _] =>
             destruct (math_lgamma x); simpl; try reflexivity
         end.
Qed.

(** The three other cost functions return whenever there are two edges to
    take the width from. *)
Lemma width_costs_return (hist : list Z) (b0 b1 : float) (rest : list float) :
  returns (shimazaki_cost hist (b0 :: b1 :: rest)) = true /\
  returns (aic_cost np_log hist (b0 :: b1 :: rest)) = true /\
  returns (bic_cost np_log hist (b0 :: b1 :: rest)) = true.
Proof. repeat split. Qed.

Lemma wrap64_small (z : Z) : - 2 ^ 63 <= z < 2 ^ 63 -> wrap64 z = z.
Proof. intros H. unfold wrap64. rewrite Z.mod_small; lia. Qed.

Lemma total_nonneg (hist : list Z) :
  Forall (fun c => 0 <= c) hist -> 0 <= Spec.total hist.
Proof. induction 1; simpl; lia. Qed.

(** Without overflow the int64 sum is the integer sum. *)
Lemma np_sum_int_total (hist : list Z) :
  Forall (fun c => 0 <= c) hist ->
  Spec.total hist < 2 ^ 63 ->
  np_sum_int hist = Spec.total hist.
Proof.
  intros Hpos Hlt. unfold np_sum_int.
  assert (G : forall acc, 0 <= acc -> acc + Spec.total hist < 2 ^ 63 ->
            fold_left (fun a x => wrap64 (a + x)) hist acc
            = acc + Spec.total hist).
  { clear Hlt. induction Hpos as [|c tl Hc Htl IH]; intros acc Ha Hb.
    - simpl. lia.
    - pose proof (total_nonneg tl Htl) as Ht.
      simpl in Hb |- *. rewrite wrap64_small by lia.
      rewrite IH by lia. lia. }
  rewrite G; lia.
Qed.

(** Masking the empty bins away and summing is the sum over the occupied
    bins. *)
Lemma entropy_term_occupied (hist : list Z) :
  entropy_term np_log hist = Spec.occupied_sum np_log hist 0.
Proof.
  unfold entropy_term, np_sum, nonzero. generalize 0%float.
  induction hist as [|c tl IH]; intros acc; [reflexivity|].
  simpl. destruct (0 <? c); simpl; apply IH.
Qed.

End CostFacts.

(** C5: on a histogram of two bins [knuth_cost] returns no evidence at all:
    [math.lgamma] is handed the array [hist + 0.5] and the call raises; with
    a log-gamma that returns everywhere the exception is the TypeError of
    the failed conversion, although the evidence of the specification is
    defined there. *)
Theorem knuth_cost_raises_on_two_bins :
  forall (np_log : float -> float),
    (forall math_lgamma : float -> result float,
       raises (knuth_cost np_log math_lgamma [3; 2] [0; 0.5; 1]%float)
       = true) /\
    (forall lgamma : float -> float,
       knuth_cost np_log (fun x => Ok (lgamma x)) [3; 2] [0; 0.5; 1]%float
       = Raise TypeError /\
       returns (Spec.knuth_evidence np_log (fun x => Ok (lgamma x)) [3; 2])
       = true).
Proof.
  intros np_log. split.
  - intros lg. apply knuth_cost_raises. discriminate.
  - intros lg. split; reflexivity.
Qed.

(** C6: for a histogram of non-negative counts whose sum fits int64,
    [aic_cost] is m + n ln(n) + n ln(h) minus the sum of hist_i ln(hist_i)
    over the occupied bins, with m the number of all bins, and [bic_cost] is
    the same expression with the penalty (ln(n)/2) m. *)
Theorem aic_bic_cost_formula (np_log : float -> float) (hist : list Z)
    (b0 b1 : float) (rest : list float) :
  Forall (fun c => 0 <= c) hist ->
  Spec.total hist < 2 ^ 63 ->
  aic_cost np_log hist (b0 :: b1 :: rest)
  = Ok (Spec.information_criterion np_log (Spec.aic_penalty hist)
          hist (b1 - b0)%float) /\
  bic_cost np_log hist (b0 :: b1 :: rest)
  = Ok (Spec.information_criterion np_log (Spec.bic_penalty np_log hist)
          hist (b1 - b0)%float).
Proof.
  intros Hpos Hlt.
  unfold aic_cost, bic_cost, Spec.information_criterion,
    Spec.aic_penalty, Spec.bic_penalty. simpl.
  rewrite (np_sum_int_total hist Hpos Hlt), entropy_term_occupied.
  split; reflexivity.
Qed.

Lemma aic_bic_cost_formula_witness :
  aic_cost sqrt [10; 0; 30] [0; 1; 2; 3]%float
  = Ok (Spec.information_criterion sqrt (Spec.aic_penalty [10; 0; 30])
          [10; 0; 30] (1 - 0)%float) /\
  bic_cost sqrt [10; 0; 30] [0; 1; 2; 3]%float
  = Ok (Spec.information_criterion sqrt (Spec.bic_penalty sqrt [10; 0; 30])
          [10; 0; 30] (1 - 0)%float).
Proof.
  apply (aic_bic_cost_formula sqrt [10; 0; 30] 0%float 1%float [2; 3]%float).
  - repeat constructor; lia.
  - vm_compute. reflexivity.
Defined.

(** C7: on an all-zero histogram of two bins the Shimazaki, AIC and BIC
    costs return (the Shimazaki cost is NaN), but [knuth_cost] raises. *)
Theorem knuth_cost_raises_on_empty_histogram :
  forall (np_log : float -> float) (math_lgamma : float -> result float),
    raises (knuth_cost np_log math_lgamma [0; 0] [0; 0.5; 1]%float) = true /\
    shimazaki_cost [0; 0] [0; 0.5; 1]%float = Ok nan /\
    returns (aic_cost np_log [0; 0] [0; 0.5; 1]%float) = true /\
    returns (bic_cost np_log [0; 0] [0; 0.5; 1]%float) = true.
Proof.
  intros np_log lg. split; [apply knuth_cost_raises; discriminate|].
  split; [vm_compute; reflexivity|]. split; reflexivity.
Qed.

(** C10: [knuth_cost] yields no value to compare on a histogram of two bins
    or on its permutation: both calls raise. *)
Theorem knuth_cost_raises_on_permuted_bins :
  forall (np_log : float -> float) (math_lgamma : float -> result float),
    Permutation [1; 2] [2; 1] /\
    raises (knuth_cost np_log math_lgamma [1; 2] [0; 0.5; 1]%float) = true /\
    raises (knuth_cost np_log math_lgamma [2; 1] [0; 0.5; 1]%float) = true.
Proof.
  intros np_log lg. split; [apply perm_swap|].
  split; apply knuth_cost_raises; discriminate.
Qed.

(* ================================================================== *)
(** ** The edges that are returned *)

Section Edges.

Lemma last_set_last (y : list float) (v d : float) :
  y <> [] -> last (set_last y v) d = v.
Proof.
  intros H. destruct y as [|x xs]; [contradiction|].
  unfold set_last. apply last_last.
Qed.

(** With at least two entries the last one is [stop] itself. *)
Lemma np_linspace_last (start stop d : float) (num : Z) (e : list float) :
  1 < num -> np_linspace start stop num = Ok e -> last e d = stop.
Proof.
  intros Hn. unfold np_linspace.
  destruct (num <? 0) eqn:H0; [discriminate|].
  destruct (1 <? num) eqn:H1; [|apply Z.ltb_ge in H1; lia].
  intros H. inversion H as [E]. clear H E.
  apply last_set_last.
  intros C. apply (f_equal (@length float)) in C.
  unfold arange in C.
  destruct (0 <? num - 1); [destruct (_ =? _)%float|];
    rewrite !length_map, length_seq in C; simpl in C; lia.
Qed.

(** A candidate whose evaluation returned went through the monotonicity
    check of [np.histogram]. *)
Lemma candidate_edges_checked (data : list float) (cf : cost_function)
    (k : Z) (lo hi : float) (bins : list float) :
  np_min data = Ok lo ->
  np_max data = Ok hi ->
  np_linspace lo hi (k + 1) = Ok bins ->
  returns (candidate_cost data cf k) = true ->
  any_decreasing bins = false.
Proof.
  intros Hlo Hhi Hb. unfold candidate_cost.
  rewrite Hlo; simpl. rewrite Hhi; simpl. rewrite Hb; simpl.
  unfold np_histogram. destruct (any_decreasing bins); [discriminate|].
  reflexivity.
Qed.

(** *** The first edge *)

Lemma Z2F_0 : Prim2SF (Z2F 0) = S754_zero false.
Proof. reflexivity. Qed.

Lemma SFeqb_refl (x : spec_float) : x <> S754_nan -> SFeqb x x = true.
Proof. intros H. unfold SFeqb. rewrite SFcompare_refl by assumption. reflexivity. Qed.

(** Adding a zero to a number gives a number equal to it. *)
Lemma add_zero_eqb (z x : float) (s : bool) :
  Prim2SF z = S754_zero s -> is_nan x = false -> (z + x =? x)%float = true.
Proof.
  intros Hz Hx. rewrite eqb_spec, add_spec, Hz.
  assert (Hn : Prim2SF x <> S754_nan).
  { intros C. unfold is_nan in Hx. rewrite eqb_spec, C in Hx. discriminate. }
  destruct (Prim2SF x) as [sx | sx | | sx mx ex]; try congruence.
  - destruct s, sx; reflexivity.
  - apply SFeqb_refl. discriminate.
  - apply SFeqb_refl. discriminate.
Qed.

Lemma ltb_not_nan_l (x y : float) : (x <? y)%float = true -> is_nan x = false.
Proof.
  intros H. destruct (is_nan x) eqn:E; [|reflexivity].
  rewrite (ltb_nan_l x y E) in H. discriminate.
Qed.

(** The offset of the first edge, [0 * step] or [0 / div * delta], is a
    zero when the step is finite. *)
Lemma first_offset_zero (delta d : float) :
  is_finite (delta / d) = true ->
  exists s,
    Prim2SF (if (delta / d =? 0)%float
             then Z2F 0 / d * delta else Z2F 0 * (delta / d))%float
    = S754_zero s.
Proof.
  intros Hfin.
  destruct (delta / d =? 0)%float eqn:Hz.
  - rewrite eqb_spec in Hz. change (Prim2SF 0) with (S754_zero false) in Hz.
    rewrite mul_spec, !div_spec, Z2F_0. rewrite div_spec in Hz.
    unfold SF64div, SF64mul, SFdiv, SFmul in *.
    destruct (Prim2SF delta) as [sd | sd | | sd md ed];
      destruct (Prim2SF d) as [sy | sy | | sy my ey];
      simpl in *; try discriminate; eauto;
      destruct sd, sy; discriminate.
  - rewrite mul_spec, Z2F_0.
    destruct (is_finite_Prim2SF _ Hfin) as [[s E] | [s [m [e E]]]].
    + rewrite eqb_spec, E in Hz. discriminate.
    + rewrite E. simpl. eauto.
Qed.

Lemma arange_two (num : Z) :
  1 < num ->
  exists tl, arange num = Z2F 0 :: Z2F 1 :: tl.
Proof.
  intros H. unfold arange.
  destruct (Z.to_nat num) as [|[|n]] eqn:E; try lia.
  simpl. eauto.
Qed.

(** With a finite step the first edge compares equal to [start]. *)
Lemma np_linspace_first (start stop : float) (num : Z) (e : list float) :
  1 < num ->
  is_nan start = false ->
  is_finite ((stop - start) / Z2F (num - 1)) = true ->
  np_linspace start stop num = Ok e ->
  exists e0, hd_error e = Some e0 /\ (e0 =? start)%float = true.
Proof.
  intros Hn Hs Hfin. unfold np_linspace.
  destruct (num <? 0) eqn:H0; [apply Z.ltb_lt in H0; lia|].
  destruct (1 <? num) eqn:H1; [|apply Z.ltb_ge in H1; lia].
  destruct (0 <? num - 1) eqn:H2; [|apply Z.ltb_ge in H2; lia].
  destruct (arange_two num Hn) as [tl Ha]. rewrite Ha.
  destruct (first_offset_zero _ _ Hfin) as [s Hoff].
  intros H. inversion H as [E]. clear H E.
  destruct ((stop - start) / Z2F (num - 1) =? 0)%float; simpl;
    eexists; (split; [reflexivity|]);
    eapply add_zero_eqb; eassumption.
Qed.

End Edges.

(** C9, as stated, fails: the sample made of 1.0 and the next binary64
    number has min < max, and the three edges [shimazaki_bins] returns for
    it are 1.0, 1.0 and max: the first two coincide. *)
Lemma close_values_give_repeated_edges :
  np_min sample_close = Ok 1%float /\
  np_max sample_close = Ok 0x1.0000000000001p+0%float /\
  (1 <? 0x1.0000000000001p+0)%float = true /\
  shimazaki_bins sample_close
  = Ok (mk_outcome [1; 1; 0x1.0000000000001p+0]%float false) /\
  Spec.strictly_increasing [1; 1; 0x1.0000000000001p+0]%float = false.
Proof. repeat split; vm_compute; reflexivity. Qed.


(* ================================================================== *)
(** ** The order of binary64 numbers *)

Section FloatOrder.

Lemma SFltb_key (x y : spec_float) :
  x <> S754_nan -> y <> S754_nan ->
  (SFltb x y = true <-> lex_lt (sf_key x) (sf_key y)).
Proof.
  intros Hx Hy. unfold SFltb.
  destruct x as [sx | sx | | sx mx ex]; try congruence;
    destruct y as [sy | sy | | sy my ey]; try congruence;
    try (destruct sx); try (destruct sy); simpl;
    try (split; [discriminate | lia]);
    try (split; [lia | reflexivity]);
    change (Pos.compare_cont Eq mx my) with (Pos.compare mx my);
    destruct (Z.compare_spec ex ey) as [He | He | He];
    destruct (Pos.compare_spec mx my) as [Hm | Hm | Hm];
    simpl; split; intros H; try discriminate; try reflexivity; try lia.
Qed.

Lemma SFeqb_key (x y : spec_float) :
  x <> S754_nan -> y <> S754_nan ->
  (SFeqb x y = true <-> sf_key x = sf_key y).
Proof.
  intros Hx Hy. unfold SFeqb.
  destruct x as [sx | sx | | sx mx ex]; try congruence;
    destruct y as [sy | sy | | sy my ey]; try congruence;
    try (destruct sx); try (destruct sy); simpl;
    try (split; [discriminate | intros H; inversion H; lia]);
    try (split; reflexivity);
    change (Pos.compare_cont Eq mx my) with (Pos.compare mx my);
    destruct (Z.compare_spec ex ey) as [He | He | He];
    destruct (Pos.compare_spec mx my) as [Hm | Hm | Hm];
    simpl; split; intros H; try discriminate; try reflexivity;
    try (inversion H; lia); subst; reflexivity.
Qed.

Lemma SFltb_not_nan (x y : spec_float) :
  SFltb x y = true -> x <> S754_nan /\ y <> S754_nan.
Proof.
  unfold SFltb. destruct x, y; simpl; intros H; split; congruence.
Qed.

Lemma SFeqb_not_nan (x y : spec_float) :
  SFeqb x y = true -> x <> S754_nan /\ y <> S754_nan.
Proof.
  unfold SFeqb. destruct x, y; simpl; intros H; split; congruence.
Qed.

Lemma lex_lt_trans (p q r : Z * Z * Z) :
  lex_lt p q -> lex_lt q r -> lex_lt p r.
Proof.
  destruct p as [[a b] c], q as [[a' b'] c'], r as [[a'' b''] c''].
  unfold lex_lt. lia.
Qed.

Lemma lex_lt_irrefl (p : Z * Z * Z) : ~ lex_lt p p.
Proof. destruct p as [[a b] c]. unfold lex_lt. lia. Qed.

(** [<] is transitive. *)
Lemma ltb_trans (a b c : float) :
  (a <? b)%float = true -> (b <? c)%float = true -> (a <? c)%float = true.
Proof.
  rewrite !ltb_spec. intros H1 H2.
  destruct (SFltb_not_nan _ _ H1) as [Ha Hb].
  destruct (SFltb_not_nan _ _ H2) as [_ Hc].
  apply SFltb_key in H1; try assumption.
  apply SFltb_key in H2; try assumption.
  apply SFltb_key; try assumption.
  eapply lex_lt_trans; eassumption.
Qed.

Lemma ltb_irrefl (a : float) : (a <? a)%float = false.
Proof.
  destruct (a <? a)%float eqn:H; [|reflexivity].
  rewrite ltb_spec in H.
  destruct (SFltb_not_nan _ _ H) as [Ha _].
  apply SFltb_key in H; try assumption.
  exfalso. exact (lex_lt_irrefl _ H).
Qed.

(** Numbers that compare equal are not ordered, and compare alike with a
    third one. *)
Lemma eqb_not_ltb (a b : float) :
  (a =? b)%float = true ->
  (a <? b)%float = false /\ (b <? a)%float = false.
Proof.
  rewrite eqb_spec, !ltb_spec. intros H.
  destruct (SFeqb_not_nan _ _ H) as [Ha Hb].
  apply SFeqb_key in H; try assumption.
  split.
  - destruct (SFltb _ _) eqn:E; [|reflexivity].
    apply SFltb_key in E; try assumption. rewrite H in E.
    exfalso. exact (lex_lt_irrefl _ E).
  - destruct (SFltb (Prim2SF b) _) eqn:E; [|reflexivity].
    apply SFltb_key in E; try assumption. rewrite H in E.
    exfalso. exact (lex_lt_irrefl _ E).
Qed.

Lemma eqb_ltb_l (a b c : float) :
  (a =? b)%float = true -> (b <? c)%float = true -> (a <? c)%float = true.
Proof.
  rewrite eqb_spec, !ltb_spec. intros H1 H2.
  destruct (SFeqb_not_nan _ _ H1) as [Ha Hb].
  destruct (SFltb_not_nan _ _ H2) as [_ Hc].
  apply SFeqb_key in H1; try assumption.
  apply SFltb_key in H2; try assumption.
  apply SFltb_key; try assumption. rewrite H1. assumption.
Qed.

Lemma eqb_ltb_r (a b c : float) :
  (a =? b)%float = true -> (c <? b)%float = true -> (c <? a)%float = true.
Proof.
  rewrite eqb_spec, !ltb_spec. intros H1 H2.
  destruct (SFeqb_not_nan _ _ H1) as [Ha Hb].
  destruct (SFltb_not_nan _ _ H2) as [Hc _].
  apply SFeqb_key in H1; try assumption.
  apply SFltb_key in H2; try assumption.
  apply SFltb_key; try assumption. rewrite H1. assumption.
Qed.

(** Negation reverses the order. *)
Lemma SFltb_opp (x y : spec_float) :
  SFltb (SFopp x) (SFopp y) = SFltb y x.
Proof.
  unfold SFltb.
  destruct x as [sx | sx | | sx mx ex];
    destruct y as [sy | sy | | sy my ey];
    try (destruct sx); try (destruct sy); simpl; try reflexivity;
    change (Pos.compare_cont Eq mx my) with (Pos.compare mx my);
    change (Pos.compare_cont Eq my mx) with (Pos.compare my mx);
    rewrite (Z.compare_antisym ex ey), (Pos.compare_antisym mx my);
    destruct (Z.compare ex ey); destruct (Pos.compare mx my); reflexivity.
Qed.

Lemma ltb_opp (a b : float) : (- a <? - b)%float = (b <? a)%float.
Proof. rewrite !ltb_spec, !opp_spec. apply SFltb_opp. Qed.

End FloatOrder.

(* ================================================================== *)
(** ** What the loop selects *)

Section Selection.

Variable minimize : bool.

Lemma improves_trans (a b c : float) :
  improves minimize a b = true -> improves minimize b c = true ->
  improves minimize a c = true.
Proof.
  unfold improves. destruct minimize; simpl;
    rewrite ?orb_false_r; intros H1 H2.
  - exact (ltb_trans a b c H1 H2).
  - exact (ltb_trans c b a H2 H1).
Qed.

Lemma improves_irrefl (a : float) : improves minimize a a = false.
Proof.
  unfold improves. rewrite ltb_irrefl. destruct minimize; reflexivity.
Qed.

Lemma improves_not_eqb (a b : float) :
  (a =? b)%float = true -> improves minimize a b = false.
Proof.
  intros H. destruct (eqb_not_ltb a b H) as [H1 H2].
  unfold improves. rewrite H1, H2. destruct minimize; reflexivity.
Qed.

Lemma improves_eqb_l (a b c : float) :
  (a =? b)%float = true -> improves minimize b c = true ->
  improves minimize a c = true.
Proof.
  unfold improves. destruct minimize; simpl;
    rewrite ?orb_false_r; intros H1 H2.
  - exact (eqb_ltb_l a b c H1 H2).
  - exact (eqb_ltb_r a b c H1 H2).
Qed.

(** If [b'] is [b] or improves on it, what does not improve on [b] does not
    improve on [b'] either. *)
Lemma improves_false_mono (c b b' : float) :
  improves minimize c b = false ->
  b' = b \/ improves minimize b' b = true ->
  improves minimize c b' = false.
Proof.
  intros Hc [E | Hb]; [subst; assumption|].
  destruct (improves minimize c b') eqn:H; [|reflexivity].
  rewrite (improves_trans c b' b H Hb) in Hc. discriminate.
Qed.

Variable patience : Z.

(** The two ways an iteration treats the best candidate so far. *)
Lemma update_cases (st : search_state) (k : Z) (c : float) :
  (improves minimize c (best_cost st) = true /\
   update minimize patience st k c
   = (mk_state c (last_cost st) k 0, Continue)) \/
  (improves minimize c (best_cost st) = false /\
   best_cost (fst (update minimize patience st k c)) = best_cost st /\
   best_n (fst (update minimize patience st k c)) = best_n st).
Proof.
  unfold update. destruct (improves minimize c (best_cost st)).
  - left. split; reflexivity.
  - right. destruct (improves minimize c (last_cost st));
      repeat split; reflexivity.
Qed.

Variable data : list float.
Variable cf : cost_function.

(** The loop splits its candidates into those it evaluated and those it
    did not reach; no evaluated cost improves on the final [best_cost], and
    [best_n] is either untouched or the first evaluated candidate whose cost
    is the final [best_cost]. *)
Lemma scan_selects (cands : list Z) :
  forall st st' f,
    scan data cf minimize patience cands st = Ok (st', f) ->
    exists visited rest,
      cands = visited ++ rest /\
      (f = Continue -> rest = []) /\
      (forall k, In k visited ->
         exists c, candidate_cost data cf k = Ok c /\
                   improves minimize c (best_cost st') = false) /\
      ((best_cost st' = best_cost st /\ best_n st' = best_n st) \/
       (improves minimize (best_cost st') (best_cost st) = true /\
        exists before after,
          visited = before ++ best_n st' :: after /\
          candidate_cost data cf (best_n st') = Ok (best_cost st') /\
          forall k, In k before ->
            exists c, candidate_cost data cf k = Ok c /\
                      (c =? best_cost st')%float = false)).
Proof.
  induction cands as [|k tl IH]; intros st st' f H.
  - simpl in H. inversion H; subst.
    exists [], []. repeat split; try tauto.
    intros k [].
  - simpl in H.
    destruct (candidate_cost data cf k) as [c|e] eqn:Hc; [|discriminate].
    simpl in H.
    pose proof (update_cases st k c) as Hu.
    destruct (update minimize patience st k c) as [st1 fl] eqn:Eu.
    simpl in Hu. destruct fl.
    + (* the loop goes on *)
      destruct (IH _ _ _ H) as [vis [rest [Hsplit [Hrest [Hvis Hsel]]]]].
      exists (k :: vis), rest.
      split; [simpl; congruence|]. split; [assumption|].
      assert (Hrel : best_cost st' = best_cost st1 \/
                     improves minimize (best_cost st') (best_cost st1) = true).
      { destruct Hsel as [[E _] | [Hi _]]; [left | right]; assumption. }
      assert (Hk : improves minimize c (best_cost st1) = false).
      { destruct Hu as [[_ Hu] | [Hn [Hb _]]].
        - inversion Hu; subst. simpl. apply improves_irrefl.
        - rewrite Hb. assumption. }
      split.
      { intros k' [E | Hin]; [subst k'|apply Hvis; assumption].
        exists c. split; [assumption|].
        eapply improves_false_mono; eassumption. }
      destruct Hu as [[Hi Hu] | [Hn [Hb Hbn]]].
      * (* candidate k became the best *)
        inversion Hu; subst st1. simpl in *. right.
        destruct Hsel as [[E En] | [Hi' [bef [aft [Hv [Hbc Hbef]]]]]].
        -- split; [rewrite E; assumption|].
           exists [], vis. rewrite En, E. repeat split; try assumption.
           intros k' [].
        -- split; [eapply improves_trans; eassumption|].
           exists (k :: bef), aft. split; [simpl; congruence|].
           split; [assumption|].
           intros k' [E | Hin]; [subst k'|apply Hbef; assumption].
           exists c. split; [assumption|].
           destruct (c =? best_cost st')%float eqn:Eq; [|reflexivity].
           destruct (eqb_not_ltb _ _ Eq) as [H1 H2].
           unfold improves in Hi'. rewrite H1, H2 in Hi'.
           destruct minimize; discriminate.
      * (* candidate k did not improve on the best *)
        destruct Hsel as [[E En] | [Hi' [bef [aft [Hv [Hbc Hbef]]]]]].
        -- left. split; congruence.
        -- right. rewrite Hb in Hi'. split; [assumption|].
           exists (k :: bef), aft. split; [simpl; congruence|].
           split; [assumption|].
           intros k' [E | Hin]; [subst k'|apply Hbef; assumption].
           exists c. split; [assumption|].
           destruct (c =? best_cost st')%float eqn:Eq; [|reflexivity].
           rewrite (improves_eqb_l _ _ _ Eq Hi') in Hn. discriminate.
    + (* the loop is left at candidate k *)
      inversion H; subst st' f.
      destruct Hu as [[_ Hu] | [Hn [Hb Hbn]]]; [inversion Hu|].
      exists [k], tl. split; [reflexivity|]. split; [discriminate|].
      split.
      { intros k' [E | []]. subst k'. exists c. split; [assumption|].
        rewrite Hb. assumption. }
      left. split; assumption.
Qed.

End Selection.

(** *** Prefixes of a range *)

Lemma py_range_cons (a b : Z) :
  a < b -> py_range a b = a :: py_range (a + 1) b.
Proof.
  intros H. unfold py_range.
  replace (Z.to_nat (b - a)) with (S (Z.to_nat (b - (a + 1)))) by lia.
  simpl. f_equal; [lia|].
  rewrite <- (seq_shift (Z.to_nat (b - (a + 1))) 0), map_map.
  apply map_ext. intros i. lia.
Qed.

Lemma py_range_nil (a b : Z) : b <= a -> py_range a b = [].
Proof.
  intros H. unfold py_range.
  replace (Z.to_nat (b - a)) with 0%nat by lia. reflexivity.
Qed.

(** A prefix of [range(a, b)] is [range(a, a + its length)]. *)
Lemma py_range_prefix (l1 : list Z) :
  forall a b l2,
    py_range a b = l1 ++ l2 ->
    (forall k, In k l1 <-> a <= k < a + len l1) /\
    (l2 = [] -> forall k, a <= k < b -> k < a + len l1).
Proof.
  induction l1 as [|x tl IH]; intros a b l2 H.
  - split.
    + intros k. unfold len. simpl. split; [intros [] | lia].
    + intros E k Hk. subst l2. simpl in H.
      assert (Hin : In k (py_range a b)) by (apply in_py_range; lia).
      rewrite H in Hin. destruct Hin.
  - destruct (Z_lt_le_dec a b) as [Hab | Hab];
      [|rewrite py_range_nil in H by assumption; discriminate].
    rewrite py_range_cons in H by assumption.
    simpl in H. inversion H as [[Hx Htl]]. subst x.
    destruct (IH _ _ _ Htl) as [Hin Hall].
    unfold len in *. simpl length. split.
    + intros k. simpl. rewrite Hin. lia.
    + intros E k Hk. specialize (Hall E).
      destruct (Z.eq_dec k a); [lia|].
      assert (k < a + 1 + Z.of_nat (length tl)) by (apply Hall; lia). lia.
Qed.

Lemma py_range_app (a b c : Z) :
  a <= b <= c -> py_range a c = py_range a b ++ py_range b c.
Proof.
  remember (Z.to_nat (b - a)) as n eqn:En. revert a En.
  induction n as [|n IH]; intros a En H.
  - replace b with a by lia.
    rewrite (py_range_nil a a) by lia. reflexivity.
  - rewrite (py_range_cons a c), (py_range_cons a b) by lia.
    rewrite (IH (a + 1)) by lia. reflexivity.
Qed.

Lemma py_range_split (l1 : list Z) :
  forall a b l2,
    py_range a b = l1 ++ l2 -> l2 = py_range (a + len l1) b.
Proof.
  induction l1 as [|x tl IH]; intros a b l2 H.
  - unfold len. simpl in *. rewrite Z.add_0_r. congruence.
  - destruct (Z_lt_le_dec a b) as [Hab | Hab];
      [|rewrite py_range_nil in H by assumption; discriminate].
    rewrite py_range_cons in H by assumption.
    simpl in H. inversion H as [[Hx Htl]].
    rewrite (IH _ _ _ Htl). unfold len. simpl length. f_equal. lia.
Qed.

Lemma py_range_head (s b n : Z) (t : list Z) :
  py_range s b = n :: t -> n = s.
Proof.
  intros H. destruct (Z_lt_le_dec s b) as [Hab | Hab].
  - rewrite py_range_cons in H by assumption. congruence.
  - rewrite py_range_nil in H by assumption. discriminate.
Qed.

(* ================================================================== *)
(** ** Further properties of the optimiser *)

(** X1: a candidate whose cost compares equal to the best cost so far
    replaces neither [best_cost] nor [best_n] (lines 51-54 test with a
    strict inequality), in either direction. *)
Theorem tie_keeps_first_optimum (minimize : bool) (patience : Z)
    (st : search_state) (n_bins : Z) (cost : float) :
  (cost =? best_cost st)%float = true ->
  best_cost (fst (update minimize patience st n_bins cost)) = best_cost st /\
  best_n (fst (update minimize patience st n_bins cost)) = best_n st.
Proof.
  intros H.
  destruct (update_cases minimize patience st n_bins cost)
    as [[Hi _] | [_ Hk]]; [|assumption].
  rewrite (improves_not_eqb minimize _ _ H) in Hi. discriminate.
Qed.

Lemma tie_keeps_first_optimum_witness :
  best_n (fst (update true 10 (mk_state 1 infinity 4 0) 7 1)) = 4 /\
  best_n (fst (update false 10 (mk_state 0 neg_infinity 4 0) 7 (- 0))) = 4.
Proof.
  split.
  - exact (proj2 (tie_keeps_first_optimum true 10
                    (mk_state 1 infinity 4 0) 7 1%float eq_refl)).
  - exact (proj2 (tie_keeps_first_optimum false 10
                    (mk_state 0 neg_infinity 4 0) 7 (- 0)%float eq_refl)).
Defined.

(** X2: when the loop of [optimize_bins] ends, the candidates it evaluated
    are the bin counts from [n_min] up to some j (all of the range when the
    loop ran out), no evaluated cost improves on the final [best_cost], and
    [best_n] is an evaluated candidate whose cost is [best_cost], unless no
    candidate improved on the initial infinite value. *)
Theorem best_cost_is_optimal_among_evaluated (data : list float)
    (cf : cost_function) (minimize : bool) (patience nmin nmax : Z)
    (st : search_state) (f : flow) :
  scan data cf minimize patience (py_range nmin nmax)
    (init_state minimize nmin) = Ok (st, f) ->
  exists j,
    nmin <= j /\
    (f = Continue -> forall k, nmin <= k < nmax -> k < j) /\
    (forall k, nmin <= k < j ->
       k < nmax /\
       exists c, candidate_cost data cf k = Ok c /\
                 improves minimize c (best_cost st) = false) /\
    ((best_n st = nmin /\ best_cost st = worst minimize) \/
     (nmin <= best_n st < j /\
      candidate_cost data cf (best_n st) = Ok (best_cost st))).
Proof.
  intros H.
  destruct (scan_selects minimize patience data cf _ _ _ _ H)
    as [vis [rest [Hsplit [Hrest [Hvis Hsel]]]]].
  destruct (py_range_prefix vis _ _ _ Hsplit) as [Hin Hall].
  destruct (init_state_fields minimize nmin) as [Hb0 [_ [Hn0 _]]].
  exists (nmin + len vis).
  split; [unfold len; lia|].
  split; [intros E; apply Hall, Hrest, E|].
  split.
  - intros k Hk. apply Hin in Hk. split; [|apply Hvis; assumption].
    assert (Hk' : In k (py_range nmin nmax))
      by (rewrite Hsplit; apply in_or_app; left; assumption).
    apply in_py_range in Hk'. lia.
  - destruct Hsel as [[E En] | [_ [bef [aft [Hv [Hbc _]]]]]].
    + left. split; congruence.
    + right. split; [|assumption].
      apply Hin. rewrite Hv. apply in_or_app. right. left. reflexivity.
Qed.

Lemma best_cost_is_optimal_among_evaluated_witness :
  exists st f,
    scan sample4 shimazaki_cost true 10 (py_range 2 20) (init_state true 2)
    = Ok (st, f) /\
    exists j,
      2 <= j /\
      (f = Continue -> forall k, 2 <= k < 20 -> k < j) /\
      (forall k, 2 <= k < j ->
         k < 20 /\
         exists c, candidate_cost sample4 shimazaki_cost k = Ok c /\
                   improves true c (best_cost st) = false) /\
      ((best_n st = 2 /\ best_cost st = worst true) \/
       (2 <= best_n st < j /\
        candidate_cost sample4 shimazaki_cost (best_n st)
        = Ok (best_cost st))).
Proof.
  eexists. eexists. split.
  - vm_compute. reflexivity.
  - apply (best_cost_is_optimal_among_evaluated sample4 shimazaki_cost
             true 10 2 20).
    vm_compute. reflexivity.
Defined.

(** X3: the first optimum among ties wins: unless no candidate improved on
    the initial infinite value, every bin count below the selected [best_n]
    was evaluated and its cost neither equals nor improves on the cost of
    [best_n]. *)
Theorem best_n_is_first_optimum (data : list float) (cf : cost_function)
    (minimize : bool) (patience nmin nmax : Z) (st : search_state)
    (f : flow) :
  scan data cf minimize patience (py_range nmin nmax)
    (init_state minimize nmin) = Ok (st, f) ->
  (best_n st = nmin /\ best_cost st = worst minimize) \/
  (candidate_cost data cf (best_n st) = Ok (best_cost st) /\
   forall k, nmin <= k < best_n st ->
     exists c, candidate_cost data cf k = Ok c /\
               (c =? best_cost st)%float = false /\
               improves minimize c (best_cost st) = false).
Proof.
  intros H.
  destruct (scan_selects minimize patience data cf _ _ _ _ H)
    as [vis [rest [Hsplit [_ [Hvis Hsel]]]]].
  destruct (init_state_fields minimize nmin) as [Hb0 [_ [Hn0 _]]].
  destruct Hsel as [[E En] | [_ [bef [aft [Hv [Hbc Hbef]]]]]].
  - left. split; congruence.
  - right. split; [assumption|].
    rewrite Hv, <- app_assoc in Hsplit. simpl in Hsplit.
    destruct (py_range_prefix bef _ _ _ Hsplit) as [Hin _].
    pose proof (py_range_split bef _ _ _ Hsplit) as Htail.
    symmetry in Htail. apply py_range_head in Htail.
    intros k Hk. rewrite Htail in Hk. apply Hin in Hk.
    destruct (Hbef k Hk) as [c [Hc Hne]].
    exists c. split; [assumption|]. split; [assumption|].
    destruct (Hvis k) as [c' [Hc' Hni]].
    { rewrite Hv. apply in_or_app. left. assumption. }
    congruence.
Qed.

(** With the negated Shimazaki cost every candidate for the sample
    0, 1, 2, 3 improves on the one before it. *)
Lemma best_n_is_first_optimum_witness :
  exists st f,
    scan sample4 (negate_cost shimazaki_cost) true 10 (py_range 2 20)
      (init_state true 2) = Ok (st, f) /\
    ((best_n st = 2 /\ best_cost st = worst true) \/
     (candidate_cost sample4 (negate_cost shimazaki_cost) (best_n st)
      = Ok (best_cost st) /\
      forall k, 2 <= k < best_n st ->
        exists c,
          candidate_cost sample4 (negate_cost shimazaki_cost) k = Ok c /\
          (c =? best_cost st)%float = false /\
          improves true c (best_cost st) = false)).
Proof.
  eexists. eexists. split.
  - vm_compute. reflexivity.
  - eapply (best_n_is_first_optimum sample4 (negate_cost shimazaki_cost)
              true 10 2 20).
    vm_compute. reflexivity.
Defined.

(** *** Early stop *)

Section EarlyStop.

Variable data : list float.
Variable cf : cost_function.
Variable minimize : bool.
Variable patience : Z.

(** Candidates that never improve on the initial value are counted one by
    one, and the loop is left at the one that brings the count to
    [patience]; what follows it is not evaluated. *)
Lemma scan_never_improving (cands : list Z) :
  forall (rest : list Z) (st : search_state),
    best_cost st = worst minimize ->
    last_cost st = worst minimize ->
    worse_count st + len cands = patience ->
    cands <> [] ->
    (forall k, In k cands ->
       never_improves minimize (candidate_cost data cf k) = true) ->
    scan data cf minimize patience (cands ++ rest) st
    = Ok (mk_state (worst minimize) (worst minimize) (best_n st) patience,
          Break).
Proof.
  induction cands as [|k tl IH]; intros rest st Hb Hl Hw Hne Hall;
    [contradiction|].
  pose proof (Hall k (or_introl eq_refl)) as Hk.
  simpl. destruct (candidate_cost data cf k) as [c|e]; [|discriminate].
  simpl in Hk |- *. apply negb_true_iff in Hk.
  unfold update. rewrite Hb, Hl, Hk.
  unfold len in Hw. simpl length in Hw.
  destruct tl as [|k' tl'].
  - simpl in Hw.
    replace (patience <=? worse_count st + 1) with true
      by (symmetry; apply Z.leb_le; lia).
    do 3 f_equal. lia.
  - replace (patience <=? worse_count st + 1) with false
      by (symmetry; apply Z.leb_gt; simpl in Hw; lia).
    rewrite (IH rest (mk_state (worst minimize) (worst minimize) (best_n st)
                        (worse_count st + 1))); try reflexivity.
    + unfold len. simpl worse_count. simpl length in *. lia.
    + discriminate.
    + intros j Hj. apply Hall. right. assumption.
Qed.

(** The count of consecutive worse candidates cannot reach [patience]
    before that many candidates were evaluated. *)
Lemma scan_break_needs_patience (cands : list Z) :
  forall st st',
    0 <= worse_count st ->
    scan data cf minimize patience cands st = Ok (st', Break) ->
    patience <= worse_count st + len cands.
Proof.
  induction cands as [|k tl IH]; intros st st' Hw H.
  - simpl in H. discriminate.
  - simpl in H. destruct (candidate_cost data cf k) as [c|e]; [|discriminate].
    simpl in H. unfold update in H. unfold len. simpl length.
    destruct (improves minimize c (best_cost st)).
    + apply IH in H; [|simpl; lia]. simpl in H. unfold len in H. lia.
    + destruct (improves minimize c (last_cost st)).
      * apply IH in H; [|simpl; lia]. simpl in H. unfold len in H. lia.
      * destruct (patience <=? worse_count st + 1) eqn:E.
        -- apply Z.leb_le in E. lia.
        -- apply IH in H; [|simpl; lia]. simpl in H. unfold len in H. lia.
Qed.

End EarlyStop.

Lemma len_py_range (a b : Z) : a <= b -> len (py_range a b) = b - a.
Proof.
  intros H. unfold len, py_range. rewrite length_map, length_seq. lia.
Qed.

(** X4: when none of the first [patience] candidates improves on the
    initial infinite value (their costs are NaN, or infinite on the wrong
    side), the loop is left at the candidate number [patience] without the
    warning, whatever the later candidates would have given, and the edges
    returned are those of [n_min] bins. *)
Theorem never_improving_costs_stop_after_patience (data : list float)
    (cf : cost_function) (minimize : bool) (patience : Z) (lo hi : float)
    (nmin nmax : Z) :
  np_min data = Ok lo ->
  np_max data = Ok hi ->
  n_min (len data) = Ok nmin ->
  n_max (len data) = Ok nmax ->
  1 <= patience <= nmax - nmin ->
  (forall k, nmin <= k < nmin + patience ->
     never_improves minimize (candidate_cost data cf k) = true) ->
  scan data cf minimize patience (py_range nmin nmax)
    (init_state minimize nmin)
  = Ok (mk_state (worst minimize) (worst minimize) nmin patience, Break) /\
  exists e,
    np_linspace lo hi (nmin + 1) = Ok e /\
    optimize_bins data cf minimize patience = Ok (mk_outcome e false).
Proof.
  intros Hlo Hhi Hmin Hmax Hp Hall.
  destruct (init_state_fields minimize nmin) as [Hb0 [Hl0 [Hn0 Hw0]]].
  assert (Hs : scan data cf minimize patience (py_range nmin nmax)
                 (init_state minimize nmin)
               = Ok (mk_state (worst minimize) (worst minimize) nmin patience,
                     Break)).
  { rewrite (py_range_app nmin (nmin + patience) nmax) by lia.
    rewrite <- Hn0 at 3.
    apply scan_never_improving; try assumption.
    - rewrite Hw0, len_py_range by lia. lia.
    - rewrite py_range_cons by lia. discriminate.
    - intros k Hk. apply in_py_range in Hk. apply Hall. assumption. }
  split; [assumption|].
  pose proof (n_min_at_least_2 _ _ Hmin) as H2.
  destruct (np_linspace_returns lo hi (nmin + 1)) as [e He]; [lia|].
  exists e. split; [assumption|].
  apply (optimize_bins_unfold data cf minimize patience nmin nmax _ Break
           lo hi e Hmin Hmax Hs Hlo Hhi He).
Qed.

Lemma never_improving_costs_stop_after_patience_witness :
  exists e,
    np_linspace 1 0x1.0000000000001p+0 (2 + 1) = Ok e /\
    optimize_bins sample_close shimazaki_cost true 10
    = Ok (mk_outcome e false).
Proof.
  refine (proj2 (never_improving_costs_stop_after_patience sample_close
                   shimazaki_cost true 10 1%float 0x1.0000000000001p+0%float
                   2 14 _ _ _ _ _ _)).
  - reflexivity.
  - reflexivity.
  - vm_compute. reflexivity.
  - vm_compute. reflexivity.
  - lia.
  - intros k Hk.
    apply (forallb_py_range
             (fun k => never_improves true
                         (candidate_cost sample_close shimazaki_cost k))
             2 (2 + 10)); [vm_compute; reflexivity | assumption].
Defined.

(** *** What a returned outcome tells *)

(** The steps [optimize_bins] went through when it returned. *)
Lemma optimize_bins_inv (data : list float) (cf : cost_function)
    (minimize : bool) (patience : Z) (o : outcome) :
  optimize_bins data cf minimize patience = Ok o ->
  exists nmin nmax st f lo hi,
    n_min (len data) = Ok nmin /\
    n_max (len data) = Ok nmax /\
    scan data cf minimize patience (py_range nmin nmax)
      (init_state minimize nmin) = Ok (st, f) /\
    np_min data = Ok lo /\
    np_max data = Ok hi /\
    np_linspace lo hi (best_n st + 1) = Ok (edges o) /\
    warned o = warning_of f.
Proof.
  unfold optimize_bins. intros H.
  destruct (n_min (len data)) as [nmin|] eqn:H1; [simpl in H|discriminate].
  destruct (n_max (len data)) as [nmax|] eqn:H2; [simpl in H|discriminate].
  destruct (scan _ _ _ _ _ _) as [[st f]|] eqn:H3; [simpl in H|discriminate].
  destruct (np_min data) as [lo|] eqn:H4; [simpl in H|discriminate].
  destruct (np_max data) as [hi|] eqn:H5; [simpl in H|discriminate].
  destruct (np_linspace lo hi (best_n st + 1)) as [e|] eqn:H6;
    [simpl in H|discriminate].
  inversion H; subst o. simpl.
  exists nmin, nmax, st, f, lo, hi.
  repeat split; try assumption; destruct f; reflexivity.
Qed.

(** X5: whenever [optimize_bins] returns, whatever the cost function, the
    edges are [np.linspace(min, max, len(edges))] of the sample, there are
    at least three of them (never fewer than two bins) and the last one is
    the maximum of the sample. *)
Theorem optimize_bins_returned_edges (data : list float)
    (cf : cost_function) (minimize : bool) (patience : Z) (o : outcome) :
  optimize_bins data cf minimize patience = Ok o ->
  exists lo hi,
    np_min data = Ok lo /\
    np_max data = Ok hi /\
    np_linspace lo hi (len (edges o)) = Ok (edges o) /\
    3 <= len (edges o) /\
    last (edges o) lo = hi.
Proof.
  intros H.
  destruct (optimize_bins_inv _ _ _ _ _ H)
    as [nmin [nmax [st [f [lo [hi [H1 [H2 [H3 [H4 [H5 [H6 _]]]]]]]]]]]].
  pose proof (n_min_at_least_2 _ _ H1) as Hn.
  pose proof (scan_best_n_range _ _ _ _ _ _ _ _ H3) as Hb.
  pose proof (np_linspace_len _ _ _ _ H6) as Hl.
  exists lo, hi. repeat split; try assumption; try lia.
  - rewrite Hl. assumption.
  - apply (np_linspace_last lo hi lo (best_n st + 1)); [lia | assumption].
Qed.

Lemma optimize_bins_returned_edges_witness :
  exists o,
    optimize_bins sample4 shimazaki_cost true 10 = Ok o /\
    exists lo hi,
      np_min sample4 = Ok lo /\
      np_max sample4 = Ok hi /\
      np_linspace lo hi (len (edges o)) = Ok (edges o) /\
      3 <= len (edges o) /\
      last (edges o) lo = hi.
Proof.
  eexists. split.
  - vm_compute. reflexivity.
  - apply (optimize_bins_returned_edges sample4 shimazaki_cost true 10).
    vm_compute. reflexivity.
Defined.

(** X6: [optimize_bins] leaves its loop early only when the candidate range
    holds at least [patience] bin counts: if it returns without having
    logged the warning, then [patience <= n_max - n_min]. *)
Theorem early_stop_needs_patience_candidates (data : list float)
    (cf : cost_function) (minimize : bool) (patience : Z) (o : outcome)
    (nmin nmax : Z) :
  n_min (len data) = Ok nmin ->
  n_max (len data) = Ok nmax ->
  optimize_bins data cf minimize patience = Ok o ->
  warned o = false ->
  patience <= nmax - nmin.
Proof.
  intros Hmin Hmax H Hw.
  destruct (optimize_bins_inv _ _ _ _ _ H)
    as [nmin' [nmax' [st [f [lo [hi [H1 [H2 [H3 [_ [_ [_ H7]]]]]]]]]]]].
  assert (nmin' = nmin) by congruence. assert (nmax' = nmax) by congruence.
  subst nmin' nmax'.
  rewrite Hw in H7. destruct f; [discriminate|].
  destruct (init_state_fields minimize nmin) as [_ [_ [_ Hw0]]].
  destruct (Z_lt_le_dec nmin nmax) as [Hlt | Hge].
  - apply scan_break_needs_patience in H3; [|rewrite Hw0; lia].
    rewrite Hw0, len_py_range in H3 by lia. lia.
  - rewrite py_range_nil in H3 by lia. simpl in H3. discriminate.
Qed.

Lemma early_stop_needs_patience_candidates_witness :
  optimize_bins sample_close shimazaki_cost true 10
  = Ok (mk_outcome [1; 1; 0x1.0000000000001p+0]%float false) /\
  10 <= 14 - 2.
Proof.
  split; [vm_compute; reflexivity|].
  apply (early_stop_needs_patience_candidates sample_close shimazaki_cost
           true 10 (mk_outcome [1; 1; 0x1.0000000000001p+0]%float false)
           2 14).
  - vm_compute. reflexivity.
  - vm_compute. reflexivity.
  - vm_compute. reflexivity.
  - reflexivity.
Defined.

(** *** Direction *)

Lemma improves_negate (c b : float) :
  improves true (- c)%float (- b)%float = improves false c b.
Proof.
  unfold improves. simpl. rewrite orb_false_r. apply ltb_opp.
Qed.

Lemma update_negate (patience : Z) (st : search_state) (k : Z) (c : float) :
  update true patience (negate_state st) k (- c)%float
  = (negate_state (fst (update false patience st k c)),
     snd (update false patience st k c)).
Proof.
  unfold update, negate_state. simpl. rewrite !improves_negate.
  destruct (improves false c (best_cost st)); [reflexivity|].
  destruct (improves false c (last_cost st)); [reflexivity|].
  destruct (patience <=? worse_count st + 1); reflexivity.
Qed.

Lemma candidate_cost_negate (data : list float) (cf : cost_function)
    (k : Z) :
  candidate_cost data (negate_cost cf) k
  = (c <- candidate_cost data cf k ;; Ok (- c)%float).
Proof.
  unfold candidate_cost, negate_cost.
  destruct (np_min data); [simpl|reflexivity].
  destruct (np_max data); [simpl|reflexivity].
  destruct (np_linspace _ _ _) as [bins|]; [simpl|reflexivity].
  destruct (np_histogram data bins); reflexivity.
Qed.

Lemma scan_negate (data : list float) (cf : cost_function) (patience : Z)
    (cands : list Z) :
  forall st,
    scan data (negate_cost cf) true patience cands (negate_state st)
    = (r <- scan data cf false patience cands st ;;
       Ok (negate_state (fst r), snd r)).
Proof.
  induction cands as [|k tl IH]; intros st; [reflexivity|].
  simpl. rewrite candidate_cost_negate.
  destruct (candidate_cost data cf k) as [c|e]; [simpl|reflexivity].
  rewrite update_negate.
  destruct (update false patience st k c) as [st1 [|]]; simpl.
  - apply IH.
  - reflexivity.
Qed.

(** X7: maximising a cost is minimising its negation: with
    [minimize=False], [optimize_bins] gives the same edges, the same
    warning and the same exceptions as with [minimize=True] on the negated
    cost function. *)
Theorem maximising_is_minimising_the_negation (data : list float)
    (cf : cost_function) (patience : Z) :
  optimize_bins data (negate_cost cf) true patience
  = optimize_bins data cf false patience.
Proof.
  unfold optimize_bins.
  destruct (n_min (len data)) as [nmin|]; [simpl|reflexivity].
  destruct (n_max (len data)) as [nmax|]; [simpl|reflexivity].
  change (init_state true nmin) with (negate_state (init_state false nmin)).
  rewrite scan_negate.
  destruct (scan data cf false patience _ _) as [[st f]|]; reflexivity.
Qed.

(** *** Exceptions *)

(** X8: on an empty sample [optimize_bins] raises ValueError, whatever the
    cost function, the direction and the patience: the candidate range is
    empty and [np.min] of the return statement fails. *)
Theorem empty_sample_raises_value_error (cf : cost_function)
    (minimize : bool) (patience : Z) :
  optimize_bins [] cf minimize patience = Raise ValueError.
Proof. reflexivity. Qed.

Lemma optimize_bins_first_raise (data : list float) (cf : cost_function)
    (minimize : bool) (patience nmin nmax : Z) (e : exn) :
  n_min (len data) = Ok nmin ->
  n_max (len data) = Ok nmax ->
  nmin < nmax ->
  candidate_cost data cf nmin = Raise e ->
  optimize_bins data cf minimize patience = Raise e.
Proof.
  intros H1 H2 Hlt Hc. unfold optimize_bins.
  rewrite H1; simpl. rewrite H2; simpl.
  rewrite py_range_cons by assumption. simpl. rewrite Hc. reflexivity.
Qed.

Lemma scan_app (data : list float) (cf : cost_function) (minimize : bool)
    (patience : Z) (l1 l2 : list Z) :
  forall st st1,
    scan data cf minimize patience l1 st = Ok (st1, Continue) ->
    scan data cf minimize patience (l1 ++ l2) st
    = scan data cf minimize patience l2 st1.
Proof.
  induction l1 as [|k tl IH]; intros st st1 H.
  - simpl in H. inversion H; subst. reflexivity.
  - simpl in H |- *.
    destruct (candidate_cost data cf k) as [c|e]; [|discriminate].
    simpl in H |- *.
    destruct (update minimize patience st k c) as [st' [|]];
      [apply IH; assumption | discriminate].
Qed.

(** X9: [optimize_bins] catches nothing: when the candidates before bin
    count k all gave finite costs (so that the loop is still running) and
    the evaluation of candidate k raises, in [np.histogram] or in the cost
    function, [optimize_bins] raises that exception. *)
Theorem candidate_exception_propagates (data : list float)
    (cf : cost_function) (minimize : bool) (patience nmin nmax k : Z)
    (e : exn) :
  n_min (len data) = Ok nmin ->
  n_max (len data) = Ok nmax ->
  nmin <= k < nmax ->
  (forall j, nmin <= j < k ->
     returns_finite (candidate_cost data cf j) = true) ->
  candidate_cost data cf k = Raise e ->
  optimize_bins data cf minimize patience = Raise e.
Proof.
  intros H1 H2 Hk Hfin Hc. unfold optimize_bins.
  rewrite H1; simpl. rewrite H2; simpl.
  destruct (init_state_fields minimize nmin) as [_ [Hl0 [_ Hw0]]].
  destruct (scan_finite data cf minimize patience (py_range nmin k)
              (init_state minimize nmin) Hl0 Hw0) as [st [Hs _]].
  { intros j Hj. apply in_py_range in Hj.
    apply returns_finite_inv, Hfin, Hj. }
  rewrite (py_range_app nmin k nmax) by lia.
  rewrite (scan_app _ _ _ _ _ _ _ _ Hs).
  rewrite py_range_cons by lia. simpl. rewrite Hc. reflexivity.
Qed.

(** For two finite numbers whose difference overflows, the edges of the
    first candidate are NaN, infinity and the maximum: [np.histogram]
    rejects them. *)
Lemma candidate_exception_propagates_witness :
  optimize_bins sample_wide shimazaki_cost true 10 = Raise ValueError.
Proof.
  apply (candidate_exception_propagates sample_wide shimazaki_cost
           true 10 2 14 2 ValueError).
  - vm_compute. reflexivity.
  - vm_compute. reflexivity.
  - lia.
  - intros j Hj. lia.
  - vm_compute. reflexivity.
Defined.

Lemma length_search_sorted_inclusive (a bins : list float) :
  length (search_sorted_inclusive a bins) = length bins.
Proof.
  induction bins as [|e [|e' tl] IH]; try reflexivity.
  change (search_sorted_inclusive a (e :: e' :: tl))
    with (count (fun x => (x <? e)%float) a
          :: search_sorted_inclusive a (e' :: tl)).
  simpl length in *. rewrite IH. reflexivity.
Qed.

Lemma length_diff (c : list Z) : length (diff c) = (length c - 1)%nat.
Proof.
  induction c as [|x [|y tl] IH]; try reflexivity.
  change (diff (x :: y :: tl)) with ((y - x) :: diff (y :: tl)).
  simpl length in *. rewrite IH. lia.
Qed.

(** The histogram handed to the cost function has as many entries as the
    candidate has bins. *)
Lemma np_histogram_len (a bins : list float) (hist : list Z) :
  np_histogram a bins = Ok hist -> len hist = len bins - 1 \/ bins = [].
Proof.
  unfold np_histogram. destruct (any_decreasing bins); [discriminate|].
  intros H. inversion H; subst hist.
  destruct bins as [|b tl]; [right; reflexivity|left].
  unfold len. rewrite length_diff, length_search_sorted_inclusive.
  simpl length. lia.
Qed.

(** X10: [knuth_bins] never returns edges: for every sample with a
    non-empty candidate range the evaluation of the first candidate raises,
    because [knuth_cost] is handed a histogram of at least two bins. *)
Theorem knuth_bins_never_returns (np_log : float -> float)
    (math_lgamma : float -> result float) (data : list float)
    (nmin nmax : Z) :
  n_min (len data) = Ok nmin ->
  n_max (len data) = Ok nmax ->
  nmin < nmax ->
  raises (knuth_bins np_log math_lgamma data) = true.
Proof.
  intros H1 H2 Hlt.
  pose proof (n_min_at_least_2 _ _ H1) as Hn.
  destruct (candidate_cost data (knuth_cost np_log math_lgamma) nmin)
    as [c|e] eqn:Hc.
  - exfalso. unfold candidate_cost in Hc.
    destruct (np_min data) as [lo|]; [simpl in Hc|discriminate].
    destruct (np_max data) as [hi|]; [simpl in Hc|discriminate].
    destruct (np_linspace lo hi (nmin + 1)) as [bins|] eqn:Hb;
      [simpl in Hc|discriminate].
    destruct (np_histogram data bins) as [hist|] eqn:Hh;
      [simpl in Hc|discriminate].
    pose proof (np_linspace_len _ _ _ _ Hb) as Lb.
    assert (Hr : raises (knuth_cost np_log math_lgamma hist bins) = true).
    { apply knuth_cost_raises.
      destruct (np_histogram_len _ _ _ Hh) as [L | E].
      - unfold len in *. lia.
      - subst bins. unfold len in Lb. simpl in Lb. lia. }
    rewrite Hc in Hr. discriminate.
  - unfold knuth_bins.
    rewrite (optimize_bins_first_raise _ _ false default_patience
               nmin nmax e H1 H2 Hlt Hc).
    reflexivity.
Qed.

Lemma knuth_bins_never_returns_witness :
  raises (knuth_bins sqrt (fun x => Ok x) sample4) = true.
Proof.
  apply (knuth_bins_never_returns sqrt (fun x => Ok x) sample4 2 20).
  - vm_compute. reflexivity.
  - vm_compute. reflexivity.
  - lia.
Defined.

(** X11: what the cost function is called with: when the evaluation of a
    candidate of k bins returns, the cost function was handed k + 1 edges
    that passed the monotonicity check of [np.histogram] and a histogram of
    exactly k counts, and its result is the candidate's cost. *)
Theorem cost_function_is_called_with_k_bins (data : list float)
    (cf : cost_function) (k : Z) (c : float) :
  0 <= k ->
  candidate_cost data cf k = Ok c ->
  exists hist bins,
    len bins = k + 1 /\
    len hist = k /\
    any_decreasing bins = false /\
    cf hist bins = Ok c.
Proof.
  intros Hk H. unfold candidate_cost in H.
  destruct (np_min data) as [lo|]; [simpl in H|discriminate].
  destruct (np_max data) as [hi|]; [simpl in H|discriminate].
  destruct (np_linspace lo hi (k + 1)) as [bins|] eqn:Hb;
    [simpl in H|discriminate].
  destruct (np_histogram data bins) as [hist|] eqn:Hh;
    [simpl in H|discriminate].
  pose proof (np_linspace_len _ _ _ _ Hb) as Lb.
  exists hist, bins. split; [assumption|]. split.
  - destruct (np_histogram_len _ _ _ Hh) as [L | E]; [lia|].
    subst bins. unfold len in Lb. simpl in Lb. lia.
  - split; [|assumption].
    unfold np_histogram in Hh.
    destruct (any_decreasing bins); [discriminate | reflexivity].
Qed.

Lemma cost_function_is_called_with_k_bins_witness :
  exists c,
    candidate_cost sample4 shimazaki_cost 5 = Ok c /\
    exists hist bins,
      len bins = 5 + 1 /\
      len hist = 5 /\
      any_decreasing bins = false /\
      shimazaki_cost hist bins = Ok c.
Proof.
  eexists. split.
  - vm_compute. reflexivity.
  - apply (cost_function_is_called_with_k_bins sample4 shimazaki_cost 5);
      [lia | vm_compute; reflexivity].
Defined.

(* ================================================================== *)
(** ** Further properties of the cost functions *)

Section MoreCostFacts.

Variable np_log : float -> float.

Lemma wrap64_range (z : Z) : - 2 ^ 63 <= wrap64 z < 2 ^ 63.
Proof.
  unfold wrap64.
  pose proof (Z.mod_pos_bound (z + 2 ^ 63) (2 ^ 64)). lia.
Qed.

(** Empty bins do not change the int64 sum. *)
Lemma np_sum_int_nonzero (hist : list Z) :
  Forall (fun c => 0 <= c) hist ->
  np_sum_int hist = np_sum_int (nonzero hist).
Proof.
  intros Hpos. unfold np_sum_int.
  assert (G : forall acc, - 2 ^ 63 <= acc < 2 ^ 63 ->
            fold_left (fun a x => wrap64 (a + x)) hist acc
            = fold_left (fun a x => wrap64 (a + x)) (nonzero hist) acc).
  { induction Hpos as [|c tl Hc Htl IH]; intros acc Ha; [reflexivity|].
    simpl. destruct (0 <? c) eqn:E.
    - simpl. apply IH, wrap64_range.
    - apply Z.ltb_ge in E. replace c with 0 by lia.
      rewrite Z.add_0_r, wrap64_small by assumption. apply IH, Ha. }
  apply G. lia.
Qed.

End MoreCostFacts.

(** X12: [aic_cost] and [bic_cost] do not depend on where the empty bins
    are: two histograms of non-negative counts with the same number of bins
    and the same occupied counts in the same order have the same AIC and
    the same BIC on the same edges. *)
Theorem aic_bic_ignore_where_empty_bins_are (np_log : float -> float)
    (hist hist' : list Z) (bins : list float) :
  Forall (fun c => 0 <= c) hist ->
  Forall (fun c => 0 <= c) hist' ->
  length hist = length hist' ->
  nonzero hist = nonzero hist' ->
  aic_cost np_log hist bins = aic_cost np_log hist' bins /\
  bic_cost np_log hist bins = bic_cost np_log hist' bins.
Proof.
  intros Hp Hp' Hlen Hnz.
  unfold aic_cost, bic_cost, entropy_term, len.
  rewrite (np_sum_int_nonzero hist Hp), (np_sum_int_nonzero hist' Hp').
  rewrite Hnz, Hlen. split; reflexivity.
Qed.

Lemma aic_bic_ignore_where_empty_bins_are_witness :
  aic_cost sqrt [10; 0; 30] [0; 1; 2; 3]%float
  = aic_cost sqrt [0; 10; 30] [0; 1; 2; 3]%float /\
  bic_cost sqrt [10; 0; 30] [0; 1; 2; 3]%float
  = bic_cost sqrt [0; 10; 30] [0; 1; 2; 3]%float.
Proof.
  apply (aic_bic_ignore_where_empty_bins_are sqrt [10; 0; 30] [0; 10; 30]
           [0; 1; 2; 3]%float).
  - repeat constructor; lia.
  - repeat constructor; lia.
  - reflexivity.
  - reflexivity.
Defined.

(** *** Exceptions of the rules that use the bin width *)

Section WidthRules.

Variable cf : cost_function.

(** The cost function returns whenever it is given two edges or more, as
    [shimazaki_cost], [aic_cost] and [bic_cost] do. *)
Hypothesis cf_returns :
  forall hist b0 b1 rest, returns (cf hist (b0 :: b1 :: rest)) = true.

Lemma candidate_raises_value_error (data : list float) (k : Z) (e : exn) :
  1 <= k -> candidate_cost data cf k = Raise e -> e = ValueError.
Proof.
  intros Hk H. unfold candidate_cost in H.
  destruct data as [|x xs]; [simpl in H; congruence|]. simpl in H.
  destruct (np_linspace _ _ (k + 1)) as [bins|] eqn:Hb.
  - simpl in H. pose proof (np_linspace_len _ _ _ _ Hb) as Lb.
    unfold np_histogram in H.
    destruct (any_decreasing bins); [simpl in H; congruence|]. simpl in H.
    destruct bins as [|b0 [|b1 rest]];
      try (unfold len in Lb; simpl in Lb; lia).
    pose proof (cf_returns (diff (search_sorted_inclusive (x :: xs)
                                    (b0 :: b1 :: rest))) b0 b1 rest) as Hr.
    rewrite H in Hr. discriminate.
  - unfold np_linspace in Hb. destruct (k + 1 <? 0); [|discriminate].
    simpl in H. congruence.
Qed.

Lemma scan_raises_value_error (data : list float) (minimize : bool)
    (patience : Z) (cands : list Z) (e : exn) :
  forall st,
    (forall k, In k cands -> 1 <= k) ->
    scan data cf minimize patience cands st = Raise e ->
    e = ValueError.
Proof.
  induction cands as [|k tl IH]; intros st Hpos H; [discriminate|].
  simpl in H.
  destruct (candidate_cost data cf k) as [c|e'] eqn:Hc.
  - simpl in H.
    destruct (update minimize patience st k c) as [st1 [|]]; [|discriminate].
    apply (IH st1); [|assumption].
    intros j Hj. apply Hpos. right. assumption.
  - simpl in H. inversion H; subst e'.
    apply (candidate_raises_value_error data k e); [|assumption].
    apply Hpos. left. reflexivity.
Qed.

Lemma py_int_raises (x : float) (e : exn) :
  py_int x = Raise e -> e = ValueError \/ e = OverflowError.
Proof.
  unfold py_int. destruct (Prim2SF x); intros H; inversion H; auto.
Qed.

Lemma optimize_bins_raises_value_errors (data : list float)
    (minimize : bool) (patience : Z) (e : exn) :
  optimize_bins data cf minimize patience = Raise e ->
  e = ValueError \/ e = OverflowError.
Proof.
  unfold optimize_bins, n_min, n_max. intros H.
  destruct (py_int (sqrt (Z2F (len data)) * _)) as [k|e1] eqn:H1;
    [simpl in H | simpl in H; inversion H; subst; eapply py_int_raises; eassumption].
  destruct (py_int (sqrt (Z2F (len data)) * 10)) as [nmax|e2] eqn:H2;
    [simpl in H | simpl in H; inversion H; subst; eapply py_int_raises; eassumption].
  destruct (scan _ _ _ _ _ _) as [[st f]|e3] eqn:H3; simpl in H.
  - left. destruct data as [|x xs]; [simpl in H; congruence|]. simpl in H.
    destruct (np_linspace _ _ _) as [bins|] eqn:Hb; [discriminate|].
    unfold np_linspace in Hb. destruct (_ <? 0); [|discriminate].
    simpl in H. congruence.
  - left. inversion H; subst e3.
    eapply scan_raises_value_error; [|eassumption].
    intros j Hj. apply in_py_range in Hj. lia.
Qed.

End WidthRules.

(** X13: [shimazaki_bins], [aic_bins] and [bic_bins] raise nothing but a
    ValueError (empty sample, edges rejected by [np.histogram]) or the
    OverflowError of [int()]: inside the loop the read of [bins[1]] never
    fails and nothing of the TypeError of [knuth_bins] can happen. *)
Theorem width_rules_raise_only_value_errors (np_log : float -> float)
    (data : list float) (e : exn) :
  shimazaki_bins data = Raise e \/
  aic_bins np_log data = Raise e \/
  bic_bins np_log data = Raise e ->
  e = ValueError \/ e = OverflowError.
Proof.
  intros [H | [H | H]];
    eapply optimize_bins_raises_value_errors; try exact H;
    intros hist b0 b1 rest; reflexivity.
Qed.

Lemma width_rules_raise_only_value_errors_witness :
  shimazaki_bins sample_wide = Raise ValueError /\
  (ValueError = ValueError \/ ValueError = OverflowError).
Proof.
  split; [vm_compute; reflexivity|].
  apply (width_rules_raise_only_value_errors sqrt sample_wide ValueError).
  left. vm_compute. reflexivity.
Defined.

(** *** The Shimazaki cost of a degenerate histogram *)

Section Degenerate.

Lemma not_finite_nan (x : float) :
  Prim2SF x = S754_nan -> is_finite x = false.
Proof.
  intros H. unfold is_finite, is_nan. rewrite eqb_spec, H. reflexivity.
Qed.

Lemma not_finite_infinity (x : float) (s : bool) :
  Prim2SF x = S754_infinity s -> is_finite x = false.
Proof.
  intros H. unfold is_finite, is_nan, is_infinity.
  rewrite !eqb_spec, abs_spec, H.
  change (Prim2SF infinity) with (S754_infinity false).
  destruct s; reflexivity.
Qed.

(** A product with a zero factor is a zero or NaN. *)
Lemma mul_zero_class (x y : float) :
  (exists s, Prim2SF x = S754_zero s) \/ (exists s, Prim2SF y = S754_zero s) ->
  (exists s, Prim2SF (x * y) = S754_zero s) \/ Prim2SF (x * y) = S754_nan.
Proof.
  rewrite mul_spec. unfold SF64mul, SFmul.
  intros [[s H] | [s H]]; rewrite H.
  - destruct (Prim2SF y); eauto.
  - destruct (Prim2SF x); eauto.
Qed.

(** Dividing by a zero or by NaN gives an infinity or NaN. *)
Lemma div_zero_not_finite (x d : float) :
  (exists s, Prim2SF d = S754_zero s) \/ Prim2SF d = S754_nan ->
  is_finite (x / d) = false.
Proof.
  intros H.
  assert (C : Prim2SF (x / d) = S754_nan \/
              exists s, Prim2SF (x / d) = S754_infinity s).
  { rewrite div_spec. unfold SF64div, SFdiv.
    destruct H as [[s H] | H]; rewrite H; destruct (Prim2SF x); eauto. }
  destruct C as [C | [s C]];
    [apply not_finite_nan | eapply not_finite_infinity]; eassumption.
Qed.

Lemma eqb_zero_class (h : float) :
  (h =? 0)%float = true -> exists s, Prim2SF h = S754_zero s.
Proof.
  rewrite eqb_spec. change (Prim2SF 0) with (S754_zero false).
  unfold SFeqb. destruct (Prim2SF h) as [s | s | | s m e]; simpl;
    try discriminate; eauto; destruct s; discriminate.
Qed.

End Degenerate.

(** X14: [shimazaki_cost] never returns a finite value for a histogram
    whose counts sum to zero or for bins of zero width ([bins[1] ==
    bins[0]]): the division by [(h * n) ** 2] gives NaN or an infinity,
    and nothing is raised. *)
Theorem shimazaki_cost_degenerate (hist : list Z) (b0 b1 : float)
    (rest : list float) :
  np_sum_int hist = 0 \/ (b1 - b0 =? 0)%float = true ->
  exists c,
    shimazaki_cost hist (b0 :: b1 :: rest) = Ok c /\ is_finite c = false.
Proof.
  intros H. unfold shimazaki_cost. simpl.
  eexists. split; [reflexivity|].
  apply div_zero_not_finite.
  assert (D : (exists s, Prim2SF ((b1 - b0) * Z2F (np_sum_int hist))
                         = S754_zero s) \/
              Prim2SF ((b1 - b0) * Z2F (np_sum_int hist)) = S754_nan).
  { apply mul_zero_class. destruct H as [H | H].
    - right. rewrite H. exists false. reflexivity.
    - left. apply eqb_zero_class. assumption. }
  destruct D as [D | D].
  - apply mul_zero_class. left. assumption.
  - right. rewrite mul_spec, D. reflexivity.
Qed.

Lemma shimazaki_cost_degenerate_witness :
  (exists c, shimazaki_cost [0; 0] [0; 0.5; 1]%float = Ok c /\
             is_finite c = false) /\
  (exists c, shimazaki_cost [0; 50] [5; 5; 5]%float = Ok c /\
             is_finite c = false).
Proof.
  split.
  - apply (shimazaki_cost_degenerate [0; 0] 0%float 0.5%float [1%float]).
    left. reflexivity.
  - apply (shimazaki_cost_degenerate [0; 50] 5%float 5%float [5%float]).
    right. reflexivity.
Defined.

(** *** Patience and finite costs *)

Lemma scan_finite_any_patience (data : list float) (cf : cost_function)
    (minimize : bool) (p p' : Z) (cands : list Z) :
  forall st,
    last_cost st = worst minimize ->
    (forall k, In k cands ->
       returns_finite (candidate_cost data cf k) = true) ->
    scan data cf minimize p cands st = scan data cf minimize p' cands st.
Proof.
  induction cands as [|k tl IH]; intros st Hl Hfin; [reflexivity|].
  destruct (returns_finite_inv _ (Hfin k (or_introl eq_refl))) as [c [Hc Hf]].
  simpl. rewrite Hc. simpl. unfold update.
  destruct (improves minimize c (best_cost st)).
  - apply IH; [assumption|]. intros j Hj. apply Hfin. right. assumption.
  - rewrite Hl, (improves_worst_finite minimize c Hf).
    apply IH; [reflexivity|]. intros j Hj. apply Hfin. right. assumption.
Qed.

(** X15: when every candidate evaluation returns a finite cost, the
    patience has no effect at all: [optimize_bins] gives the same outcome
    for any two values of [patience]. *)
Theorem patience_is_irrelevant_for_finite_costs (data : list float)
    (cf : cost_function) (minimize : bool) (p p' nmin nmax : Z) :
  n_min (len data) = Ok nmin ->
  n_max (len data) = Ok nmax ->
  (forall k, nmin <= k < nmax ->
     returns_finite (candidate_cost data cf k) = true) ->
  optimize_bins data cf minimize p = optimize_bins data cf minimize p'.
Proof.
  intros H1 H2 Hfin. unfold optimize_bins.
  rewrite H1; simpl. rewrite H2; simpl.
  destruct (init_state_fields minimize nmin) as [_ [Hl0 _]].
  rewrite (scan_finite_any_patience data cf minimize p p'
             (py_range nmin nmax) (init_state minimize nmin) Hl0).
  - reflexivity.
  - intros k Hk. apply Hfin, in_py_range, Hk.
Qed.

Lemma patience_is_irrelevant_for_finite_costs_witness :
  optimize_bins sample4 shimazaki_cost true 10
  = optimize_bins sample4 shimazaki_cost true 1.
Proof.
  apply (patience_is_irrelevant_for_finite_costs sample4 shimazaki_cost
           true 10 1 2 20).
  - vm_compute. reflexivity.
  - vm_compute. reflexivity.
  - apply forallb_py_range. vm_compute. reflexivity.
Defined.

(* ================================================================== *)
(** ** The edges that are returned, whenever edges are returned *)

Section Returned.

Variable data : list float.
Variable cf : cost_function.
Variable minimize : bool.
Variable patience : Z.

(** A loop that ended without an exception evaluated its first candidate. *)
Lemma scan_first_returned (k : Z) (tl : list Z) (st : search_state)
    (r : search_state * flow) :
  scan data cf minimize patience (k :: tl) st = Ok r ->
  returns (candidate_cost data cf k) = true.
Proof.
  simpl. destruct (candidate_cost data cf k); [reflexivity | discriminate].
Qed.

(** The bin count the loop ends with is the one it started with or a
    candidate whose evaluation returned. *)
Lemma scan_best_n_returned (cands : list Z) :
  forall st st' f,
    scan data cf minimize patience cands st = Ok (st', f) ->
    best_n st' = best_n st \/
    returns (candidate_cost data cf (best_n st')) = true.
Proof.
  induction cands as [|k tl IH]; intros st st' f H.
  - simpl in H. inversion H; subst. left. reflexivity.
  - simpl in H.
    destruct (candidate_cost data cf k) as [c|e] eqn:Hc; [|discriminate].
    simpl in H.
    pose proof (update_best_n minimize patience st k c) as Hb.
    destruct (update minimize patience st k c) as [st1 [|]]; simpl in Hb.
    + destruct (IH _ _ _ H) as [E | Hr]; [|right; assumption].
      rewrite E. destruct Hb as [Hb | Hb]; [left; assumption|].
      right. rewrite Hb, Hc. reflexivity.
    + inversion H; subst st' f.
      destruct Hb as [Hb | Hb]; [left; assumption|].
      right. rewrite Hb, Hc. reflexivity.
Qed.

(** With a non-empty range the selected bin count is a candidate of the
    range whose evaluation returned. *)
Lemma selected_candidate_returned (nmin nmax : Z) (st : search_state)
    (f : flow) :
  nmin < nmax ->
  scan data cf minimize patience (py_range nmin nmax)
    (init_state minimize nmin) = Ok (st, f) ->
  nmin <= best_n st < nmax /\
  returns (candidate_cost data cf (best_n st)) = true.
Proof.
  intros Hlt H.
  destruct (init_state_fields minimize nmin) as [_ [_ [Hn0 _]]].
  split.
  - destruct (scan_best_n_range _ _ _ _ _ _ _ _ H); lia.
  - destruct (scan_best_n_returned _ _ _ _ H) as [E | Hr]; [|assumption].
    rewrite E, Hn0. rewrite py_range_cons in H by assumption.
    eapply scan_first_returned. eassumption.
Qed.

(** A candidate whose evaluation returned had a sample with a minimum and a
    maximum. *)
Lemma candidate_returned_min_max (k : Z) :
  returns (candidate_cost data cf k) = true ->
  exists lo hi, np_min data = Ok lo /\ np_max data = Ok hi.
Proof.
  unfold candidate_cost.
  destruct (np_min data) as [lo|]; [simpl|discriminate].
  destruct (np_max data) as [hi|]; [simpl|discriminate].
  eauto.
Qed.

End Returned.

(** C3, as stated, fails: the sample made of 0.0 and three times the
    smallest positive number has min < max and the candidate range [2, 14),
    but rounding makes the edges of 5 bins decrease, [np.histogram] rejects
    them and [optimize_bins] returns no edges. *)
Lemma subnormal_span_returns_no_edges :
  np_min sample_subnormal = Ok 0%float /\
  np_max sample_subnormal = Ok 0x3p-1074%float /\
  (0 <? 0x3p-1074)%float = true /\
  n_min (len sample_subnormal) = Ok 2 /\
  n_max (len sample_subnormal) = Ok 14 /\
  optimize_bins sample_subnormal shimazaki_cost true 10 = Raise ValueError.
Proof. repeat split; vm_compute; reflexivity. Qed.

(** C3, amended: with a non-empty candidate range, whenever [optimize_bins]
    returns edges their bin count [len(edges) - 1] lies in [n_min, n_max);
    and it does return whenever the evaluation of every candidate
    returns. *)
Theorem optimize_bins_bin_count_in_range (data : list float)
    (cf : cost_function) (minimize : bool) (patience nmin nmax : Z) :
  n_min (len data) = Ok nmin ->
  n_max (len data) = Ok nmax ->
  nmin < nmax ->
  (forall o, optimize_bins data cf minimize patience = Ok o ->
             nmin <= len (edges o) - 1 < nmax) /\
  ((forall k, nmin <= k < nmax ->
      returns (candidate_cost data cf k) = true) ->
   exists o, optimize_bins data cf minimize patience = Ok o).
Proof.
  intros Hmin Hmax Hne.
  pose proof (n_min_at_least_2 _ _ Hmin) as H2. split.
  - intros o H.
    destruct (optimize_bins_inv _ _ _ _ _ H)
      as [nmin' [nmax' [st [f [lo [hi [H1 [H2' [H3 [_ [_ [H6 _]]]]]]]]]]]].
    assert (nmin' = nmin) by congruence. assert (nmax' = nmax) by congruence.
    subst nmin' nmax'.
    rewrite (np_linspace_len _ _ _ _ H6).
    destruct (scan_best_n_range _ _ _ _ _ _ _ _ H3); lia.
  - intros Hret.
    destruct (scan_returns data cf minimize patience (py_range nmin nmax)
                (init_state minimize nmin)) as [st [f Hs]].
    { intros k Hk. apply Hret, in_py_range, Hk. }
    destruct (candidate_returned_min_max data cf nmin) as [lo [hi [Hlo Hhi]]].
    { apply Hret. lia. }
    destruct (np_linspace_returns lo hi (best_n st + 1)) as [e He].
    { destruct (scan_best_n_range _ _ _ _ _ _ _ _ Hs); lia. }
    exists (mk_outcome e (warning_of f)).
    eapply optimize_bins_unfold; eassumption.
Qed.

Lemma optimize_bins_bin_count_in_range_witness :
  exists o, optimize_bins sample4 shimazaki_cost true 10 = Ok o /\
            2 <= len (edges o) - 1 < 20.
Proof.
  assert (H1 : n_min (len sample4) = Ok 2) by (vm_compute; reflexivity).
  assert (H2 : n_max (len sample4) = Ok 20) by (vm_compute; reflexivity).
  assert (H3 : 2 < 20) by lia.
  destruct (optimize_bins_bin_count_in_range sample4 shimazaki_cost true 10
              2 20 H1 H2 H3) as [Hrange Hret].
  destruct Hret as [o Ho].
  - apply forallb_py_range. vm_compute. reflexivity.
  - exists o. split; [assumption | apply Hrange; assumption].
Defined.

(** C9, amended: on a sample with min < max and a non-empty candidate
    range, whenever [optimize_bins] returns, the edges are exactly
    [np.linspace(min, max, k + 1)] for a k of the range: k + 1 edges of
    which none is greater than its successor, the last one is max, and the
    first one compares equal to min whenever the step (max - min) / k is
    finite. *)
Theorem optimize_bins_edges_are_linspace (data : list float)
    (cf : cost_function) (minimize : bool) (patience : Z) (lo hi : float)
    (nmin nmax : Z) (o : outcome) :
  np_min data = Ok lo ->
  np_max data = Ok hi ->
  (lo <? hi)%float = true ->
  n_min (len data) = Ok nmin ->
  n_max (len data) = Ok nmax ->
  nmin < nmax ->
  optimize_bins data cf minimize patience = Ok o ->
  exists k,
    nmin <= k < nmax /\
    np_linspace lo hi (k + 1) = Ok (edges o) /\
    len (edges o) = k + 1 /\
    any_decreasing (edges o) = false /\
    last (edges o) lo = hi /\
    (is_finite ((hi - lo) / Z2F k) = true ->
     exists e0, hd_error (edges o) = Some e0 /\ (e0 =? lo)%float = true).
Proof.
  intros Hlo Hhi Hlt Hmin Hmax Hne H.
  destruct (optimize_bins_inv _ _ _ _ _ H)
    as [nmin' [nmax' [st [f [lo' [hi' [H1 [H2 [H3 [H4 [H5 [H6 _]]]]]]]]]]]].
  assert (nmin' = nmin) by congruence. assert (nmax' = nmax) by congruence.
  assert (lo' = lo) by congruence. assert (hi' = hi) by congruence.
  subst nmin' nmax' lo' hi'.
  pose proof (n_min_at_least_2 _ _ Hmin) as Hn.
  destruct (selected_candidate_returned data cf minimize patience
              nmin nmax st f Hne H3) as [Hb Hr].
  exists (best_n st).
  split; [assumption|].
  split; [assumption|].
  split; [apply (np_linspace_len _ _ _ _ H6)|].
  split; [apply (candidate_edges_checked data cf (best_n st) lo hi);
          assumption|].
  split; [apply (np_linspace_last lo hi lo (best_n st + 1));
          [lia | assumption]|].
  intros Hfin.
  apply (np_linspace_first lo hi (best_n st + 1)); try assumption; try lia.
  - apply (ltb_not_nan_l lo hi Hlt).
  - replace (best_n st + 1 - 1) with (best_n st) by lia. assumption.
Qed.

(** The sample of C3 with a patience of 3: the loop is left before the
    candidate of 5 bins, whose edges decrease, and edges are returned. *)
Lemma optimize_bins_edges_are_linspace_witness :
  exists o,
    optimize_bins sample_subnormal shimazaki_cost true 3 = Ok o /\
    exists k,
      2 <= k < 14 /\
      np_linspace 0 0x3p-1074 (k + 1) = Ok (edges o) /\
      len (edges o) = k + 1 /\
      any_decreasing (edges o) = false /\
      last (edges o) 0%float = 0x3p-1074%float /\
      (is_finite ((0x3p-1074 - 0) / Z2F k) = true ->
       exists e0, hd_error (edges o) = Some e0 /\ (e0 =? 0)%float = true).
Proof.
  eexists. split.
  - vm_compute. reflexivity.
  - apply (optimize_bins_edges_are_linspace sample_subnormal shimazaki_cost
             true 3 0%float 0x3p-1074%float 2 14).
    + reflexivity.
    + reflexivity.
    + reflexivity.
    + vm_compute. reflexivity.
    + vm_compute. reflexivity.
    + lia.
    + vm_compute. reflexivity.
Defined.

(* ================================================================== *)
(** ** A sample of identical values *)

Section Identical.

Variable v : float.












Variable data : list float.
Variable cf : cost_function.

Hypothesis data_min : np_min data = Ok v.
Hypothesis data_max : np_max data = Ok v.


End Identical.



